(** * WeaveEnv: the plugin lifecycle and execution manager

    A shallow embedding of [weaveenv/plugins.py] (and of the launcher in
    [weaveenv/app.py]) together with the properties its specification
    states about it.

    Python objects are modelled as follows.
    - [str] is [string]; a character is a code point below 256.
    - A dictionary with string keys is a [gmap string _].
    - An exception is a constructor of [exn]; a call that may raise returns
      a [result].
    - Code that mutates an object and may raise afterwards returns the
      mutated object next to the [result], so that a mutation made before
      the exception is still visible, as it is in Python. *)

From Stdlib Require Import ZArith String Ascii List Bool Lia.
From stdpp Require Import base gmap strings list fin_maps.

Open Scope string_scope.
Open Scope Z_scope.

Set Warnings "-register-all".

(** ** Exceptions and results *)

Inductive exn : Type :=
  | ValueError (msg : string)
  | KeyError (key : string)
  | TypeError (msg : string)
  | AttributeError (msg : string)
  | ImportError (msg : string)
  | FileNotFoundError (path : string)
  | NotADirectoryError (path : string)
  | IsADirectoryError (path : string)
  | CalledProcessError
  | GitCommandError
  | Exception_ (msg : string).

(** The classes named in the [except] clauses of the module. *)
Inductive exn_class : Type :=
  | CValueError | CKeyError | CAttributeError | CImportError
  | CIOError | CCalledProcessError | CException.

(** [isinstance e c]. [IOError] is [OSError], the base class of
    [FileNotFoundError] and [NotADirectoryError]; every class derives from
    [Exception]. *)
Definition isinstance (e : exn) (c : exn_class) : bool :=
  match c, e with
  | CException, _ => true
  | CValueError, ValueError _ => true
  | CKeyError, KeyError _ => true
  | CAttributeError, AttributeError _ => true
  | CImportError, ImportError _ => true
  | CIOError, FileNotFoundError _ => true
  | CIOError, NotADirectoryError _ => true
  | CIOError, IsADirectoryError _ => true
  | CCalledProcessError, CalledProcessError => true
  | _, _ => false
  end.

Inductive result (A : Type) : Type :=
  | Ok (a : A)
  | Raise (e : exn).
Arguments Ok {A} a.
Arguments Raise {A} e.

Definition is_ok {A} (r : result A) : bool :=
  match r with Ok _ => true | Raise _ => false end.

(** A computation over a mutable state [S]: the state that comes back is the
    one reached when the computation returned or raised. *)
Definition M (S A : Type) : Type := S -> result A * S.

Definition ret {S A} (a : A) : M S A := fun s => (Ok a, s).
Definition raise {S A} (e : exn) : M S A := fun s => (Raise e, s).
Definition bind {S A B} (m : M S A) (k : A -> M S B) : M S B :=
  fun s => match m s with
           | (Ok a, s') => k a s'
           | (Raise e, s') => (Raise e, s')
           end.
Definition lift {S A} (r : result A) : M S A := fun s => (r, s).
Definition get {S} : M S S := fun s => (Ok s, s).
Definition modify {S} (f : S -> S) : M S unit := fun s => (Ok tt, f s).

Declare Scope py_scope.
Delimit Scope py_scope with py.
Notation "x <- m ;; k" := (bind m (fun x => k))
  (at level 100, m at next level, right associativity) : py_scope.
Notation "m ;;; k" := (bind m (fun _ => k))
  (at level 100, right associativity) : py_scope.
Open Scope py_scope.

(** ** Strings *)

(** [str.isspace] on one character: the Unicode white space below 256. *)
Definition isspace (c : ascii) : bool :=
  let n := N_of_ascii c in
  ((9 <=? n) && (n <=? 13) || (28 <=? n) && (n <=? 32)
   || (n =? 133) || (n =? 160))%N.

Fixpoint lstrip (s : string) : string :=
  match s with
  | EmptyString => EmptyString
  | String c s' => if isspace c then lstrip s' else s
  end.

Fixpoint rstrip (s : string) : string :=
  match s with
  | EmptyString => EmptyString
  | String c s' =>
      match rstrip s' with
      | EmptyString => if isspace c then EmptyString else String c EmptyString
      | r => String c r
      end
  end.

(** [s.strip()] *)
Definition strip (s : string) : string := rstrip (lstrip s).

(** Truth value of a [str]: the empty string is false. *)
Definition str_truthy (s : string) : bool :=
  match s with EmptyString => false | String _ _ => true end.

(** A token is blank when it is empty or made of white space only. *)
Fixpoint blank (s : string) : bool :=
  match s with
  | EmptyString => true
  | String c s' => isspace c && blank s'
  end.

(** [os.path.join a b] on POSIX, for two components. *)
Definition path_join (a b : string) : string :=
  match b with
  | String "/" _ => b
  | _ =>
      match a with
      | EmptyString => b
      | _ => if String.eqb (substring (String.length a - 1)%nat 1%nat a) "/"
             then a +:+ b else a +:+ "/" +:+ b
      end
  end.

(** ** Values *)

(** What [json.load] returns. Numbers are integers here; the module never
    computes with them. *)
Inductive json : Type :=
  | JNull
  | JBool (b : bool)
  | JNum (n : Z)
  | JStr (s : string)
  | JList (l : list json)
  | JObj (kvs : list (string * json)).

(** The capability contract of a running plugin: [service_start],
    [wait_for_start(timeout)] and [service_stop], each of which may raise.
    The plugin's own code is outside the module; a service is given by what
    its three methods answer. *)
Record Service : Type := {
  service_start : result unit;
  wait_for_start : Z -> result bool;
  service_stop : result unit;
}.

(** An object that is not plain data, such as the class a manifest's
    [service] entry resolves to. Calling it with a token, a configuration
    and an environment directory builds a service or raises (an object that
    is not callable raises [TypeError]). *)
Record pyobject : Type := {
  py_call : option string -> json -> string -> result Service;
}.

Inductive value : Type :=
  | VJson (j : json)
  | VObj (o : pyobject).

Abbreviation VStr s := (VJson (JStr s)).
Abbreviation VBool b := (VJson (JBool b)).
Abbreviation VNone := (VJson JNull).

(** A plugin descriptor, [plugin_info] or [obj] in the source: a [dict]. *)
Abbreviation dict := (gmap string value).

(** [d[k]] *)
Definition getitem (d : dict) (k : string) : result value :=
  match d !! k with
  | Some v => Ok v
  | None => Raise (KeyError k)
  end.

(** [d[k]] where a [str] is expected. Plugin ids, urls and paths are
    strings throughout ([get_plugin_id] returns a hex digest); a descriptor
    that holds anything else there is rejected here. *)
Definition getitem_str (d : dict) (k : string) : result string :=
  match d !! k with
  | Some (VStr s) => Ok s
  | Some _ => Raise (TypeError "expected str")
  | None => Raise (KeyError k)
  end.

(** Truth value of an object. *)
Definition truthy (v : value) : bool :=
  match v with
  | VJson JNull => false
  | VJson (JBool b) => b
  | VJson (JNum n) => negb (n =? 0)
  | VJson (JStr s) => str_truthy s
  | VJson (JList l) => match l with [] => false | _ => true end
  | VJson (JObj kvs) => match kvs with [] => false | _ => true end
  | VObj _ => true
  end.

(** ** The plugins database *)

(** Modelled from the spec: [weaveenv/database.py] ([PluginsDatabase]) is
    not among the sources. The spec describes it as a key-value store keyed
    by plugin id, one entry per id with the fields [enabled] (boolean) and
    [app_secret_token] (a string, or none); the callers in [plugins.py]
    expect [query] to raise [ValueError] for an id without an entry (they
    catch nothing else, and [query] raises nothing else here), and write an
    entry back with [save]. *)
Record PluginData : Type := {
  enabled : bool;
  app_secret_token : option string;
}.

Abbreviation PluginsDatabase := (gmap string PluginData).

Definition query (database : PluginsDatabase) (plugin_id : string)
    : result PluginData :=
  match database !! plugin_id with
  | Some row => Ok row
  | None => Raise (ValueError "no such plugin")
  end.

Definition save (plugin_id : string) (row : PluginData)
    (database : PluginsDatabase) : PluginsDatabase :=
  <[plugin_id := row]> database.

(** ** Running and stopping a service *)

(** The calls made on services, oldest first. The log is not a field of the
    source; it records the effects the module has on the plugins it
    supervises. *)
Inductive call : Type :=
  | Construct (token : option string) (venv_dir : string)
  | Start
  | WaitForStart (timeout : Z)
  | Stop.

(** [PluginExecutionManager] *)
Record ExecutionManager : Type := {
  em_plugin_dir : string;
  em_venv_dir : string;
  database : PluginsDatabase;
  active_plugins : gmap string Service;
  calls : list call;
}.

Definition log (c : call) : M ExecutionManager unit :=
  modify (fun em => {| em_plugin_dir := em_plugin_dir em;
                       em_venv_dir := em_venv_dir em;
                       database := database em;
                       active_plugins := active_plugins em;
                       calls := calls em ++ [c] |}).

Definition set_database (db : PluginsDatabase) : M ExecutionManager unit :=
  modify (fun em => {| em_plugin_dir := em_plugin_dir em;
                       em_venv_dir := em_venv_dir em;
                       database := db;
                       active_plugins := active_plugins em;
                       calls := calls em |}).

Definition set_active (plugin_id : string) (service : Service)
    : M ExecutionManager unit :=
  modify (fun em => {| em_plugin_dir := em_plugin_dir em;
                       em_venv_dir := em_venv_dir em;
                       database := database em;
                       active_plugins := <[plugin_id := service]> (active_plugins em);
                       calls := calls em |}).

(** [PluginExecutionManager.__init__] *)
Definition new_execution_manager (plugin_dir venv_dir : string)
    (db : PluginsDatabase) : ExecutionManager :=
  {| em_plugin_dir := plugin_dir; em_venv_dir := venv_dir;
     database := db; active_plugins := ∅; calls := [] |}.

(** [cls(token, config, venv_dir)]: plain data is not callable. *)
Definition construct (cls : value) (token : option string) (config : json)
    (venv_dir : string) : M ExecutionManager Service :=
  match cls with
  | VObj o =>
      log (Construct token venv_dir) ;;;
      lift (py_call o token config venv_dir)
  | VJson _ => raise (TypeError "object is not callable")
  end.

Definition run_plugin (service : Service) (timeout : Z)
    : M ExecutionManager bool :=
  log Start ;;; lift (service_start service) ;;;
  log (WaitForStart timeout) ;;;
  started <- lift (wait_for_start service timeout) ;;
  if negb started then
    log Stop ;;; lift (service_stop service) ;;; ret false
  else ret true.

Definition stop_plugin (service : Service) : M ExecutionManager unit :=
  log Stop ;;; lift (service_stop service).

(** ** PluginExecutionManager *)

Definition get_plugin_data (plugin_id : string)
    : M ExecutionManager PluginData :=
  fun em => (query (database em) plugin_id, em).

Definition is_enabled (em : ExecutionManager) (plugin_id : string) : bool :=
  match query (database em) plugin_id with
  | Raise _ => false
  | Ok plugin =>
      enabled plugin &&
      match app_secret_token plugin with
      | None => false
      | Some token => (0 <? Z.of_nat (String.length token))
      end
  end.

Definition enable (plugin_id : string) : M ExecutionManager bool :=
  fun em =>
    match query (database em) plugin_id with
    | Raise _ => (Ok false, em)
    | Ok plugin_data =>
        if enabled plugin_data then (Ok true, em)
        else
          (set_database
             (save plugin_id
                {| enabled := true;
                   app_secret_token := app_secret_token plugin_data |}
                (database em)) ;;; ret true) em
    end.

Definition disable (plugin_id : string) : M ExecutionManager bool :=
  fun em =>
    match query (database em) plugin_id with
    | Raise _ => (Ok false, em)
    | Ok plugin_data =>
        if negb (enabled plugin_data) then (Ok true, em)
        else
          (set_database
             (save plugin_id
                {| enabled := false;
                   app_secret_token := app_secret_token plugin_data |}
                (database em)) ;;; ret true) em
    end.

Definition is_active (em : ExecutionManager) (plugin_id : string) : bool :=
  bool_decide (is_Some (active_plugins em !! plugin_id)).

Definition activate (plugin_info : dict) : M ExecutionManager bool :=
  plugin_id <- lift (getitem_str plugin_info "id") ;;
  em <- get ;;
  if negb (is_enabled em plugin_id) then
    raise (ValueError "Plugin is not enabled.")
  else if is_active em plugin_id then ret true
  else
    let venv_dir := path_join (em_venv_dir em) plugin_id in
    plugin_data <- get_plugin_data plugin_id ;;
    cls <- lift (getitem plugin_info "cls") ;;
    service <- construct cls (app_secret_token plugin_data) (JObj [])
                 venv_dir ;;
    started <- run_plugin service 30 ;;
    if negb started then raise (Exception_ "Unable to start plugin.")
    else
      lift (getitem plugin_info "name") ;;;
      set_active plugin_id service ;;;
      ret true.

Definition deactivate (plugin_id : string) : M ExecutionManager bool :=
  em <- get ;;
  if negb (is_active em plugin_id) then
    raise (ValueError "Plugin is not active.")
  else
    match active_plugins em !! plugin_id with
    | None => raise (KeyError plugin_id)
    | Some service => stop_plugin service ;;; ret true
    end.

Definition update_token (plugin_id : string) (token : string)
    : M ExecutionManager bool :=
  if negb (str_truthy (strip token)) then raise (ValueError "Invalid token.")
  else
    fun em =>
      match query (database em) plugin_id with
      | Raise _ => (Raise (ValueError "Unable to find plugin."), em)
      | Ok plugin_data =>
          (set_database
             (save plugin_id
                {| enabled := enabled plugin_data;
                   app_secret_token := Some token |}
                (database em)) ;;; ret true) em
      end.

(** ** The disk *)

Inductive node : Type :=
  | Dir
  | File (content : string).

(** The part of the file system the module touches: what is found at each
    path. *)
Abbreviation disk := (gmap string node).

Definition path_exists (d : disk) (p : string) : bool :=
  match d !! p with Some _ => true | None => false end.

Definition isdir (d : disk) (p : string) : bool :=
  match d !! p with Some Dir => true | _ => false end.

Definition isfile (d : disk) (p : string) : bool :=
  match d !! p with Some (File _) => true | _ => false end.

(** [q] is [p] itself or lies below it. *)
Definition within (p q : string) : bool :=
  String.eqb p q || String.prefix (p +:+ "/") q.

(** [shutil.rmtree(p)]: removes the directory and all it holds; raises when
    [p] is missing or is not a directory. *)
Definition rmtree (p : string) : M disk unit :=
  fun d =>
    match d !! p with
    | None => (Raise (FileNotFoundError p), d)
    | Some (File _) => (Raise (NotADirectoryError p), d)
    | Some Dir => (Ok tt, filter (fun kv => within p kv.1 = false) d)
    end.

(** [open(p).read()] *)
Definition read_file (d : disk) (p : string) : result string :=
  match d !! p with
  | None => Raise (FileNotFoundError p)
  | Some Dir => Raise (IsADirectoryError p)
  | Some (File content) => Ok content
  end.

(** ** Collaborators

    The libraries the module calls and whose code is not part of it. Each
    is given by what it answers and by what it does to the disk. *)
Record Externals : Type := {
  (** [hashlib.md5(s.encode('utf-8')).hexdigest()] *)
  md5_hexdigest : string -> string;
  (** [git.Repo.clone_from(url, dest)] *)
  clone_from : string -> string -> M disk unit;
  (** [virtualenv.create_environment(home, clear=True)] *)
  create_environment : string -> M disk unit;
  (** [subprocess.check_call(args)] *)
  check_call : list string -> M disk unit;
  (** [json.loads]; a text that is not JSON raises [ValueError]. *)
  json_loads : string -> result json;
  (** [importlib.import_module(name)] with the given directory appended to
      [sys.path]; a module is given by its attributes. *)
  import_module : string -> string -> result (string -> option value);
}.

Definition get_plugin_id (ext : Externals) (url : string) : string :=
  md5_hexdigest ext url.

(** ** VirtualEnvManager *)

Record VirtualEnvManager : Type := { venv_home : string }.

Definition venv_install (ext : Externals) (self : VirtualEnvManager)
    (requirements_file : option string) : M disk bool :=
  d <- get ;;
  if path_exists d (venv_home self) then ret true
  else
    create_environment ext (venv_home self) ;;;
    match requirements_file with
    | Some file =>
        if str_truthy file then
          let args := [path_join (venv_home self) "bin/python"; "-m"; "pip";
                       "install"; "-r"; file] in
          fun d1 =>
            match check_call ext args d1 with
            | (Raise e, d2) =>
                if isinstance e CCalledProcessError then (Ok false, d2)
                else (Raise e, d2)
            | (Ok _, d2) => (Ok true, d2)
            end
        else ret true
    | None => ret true
    end.

Definition venv_clean (self : VirtualEnvManager) : M disk unit :=
  rmtree (venv_home self).

(** ** InstalledPlugin and GitPlugin *)

Record InstalledPlugin : Type := { src : string }.

Definition installed_clean (self : InstalledPlugin) : M disk unit :=
  d <- get ;;
  if isdir d (src self) then rmtree (src self) else ret tt.

Definition get_plugin_dir (self : InstalledPlugin) : string := src self.

Record GitPlugin : Type := { clone_url : string }.

Definition git_unique_id (ext : Externals) (self : GitPlugin) : string :=
  get_plugin_id ext (clone_url self).

Definition clone (ext : Externals) (self : GitPlugin)
    (plugin_base_dir : string) : M disk InstalledPlugin :=
  let cloned_location := path_join plugin_base_dir (git_unique_id ext self) in
  d <- get ;;
  (if isdir d cloned_location then rmtree cloned_location else ret tt) ;;;
  clone_from ext (clone_url self) cloned_location ;;;
  ret {| src := cloned_location |}.

(** ** PluginInstallManager *)

Record PluginInstallManager : Type := {
  im_plugin_dir : string;
  im_venv_dir : string;
}.

Definition is_installed (self : PluginInstallManager) (d : disk)
    (plugin_id : string) : bool :=
  let plugin_dir := path_join (im_plugin_dir self) plugin_id in
  let venv_dir := path_join (im_plugin_dir self) plugin_id in
  isdir d plugin_dir && isdir d venv_dir.

Definition uninstall (self : PluginInstallManager) (plugin_id : string)
    : M disk unit :=
  installed_clean {| src := path_join (im_plugin_dir self) plugin_id |} ;;;
  venv_clean {| venv_home := path_join (im_venv_dir self) plugin_id |}.

(** The body of the [try] block of [install]. *)
Definition install_body (ext : Externals) (self : PluginInstallManager)
    (git_plugin : GitPlugin) (venv : VirtualEnvManager)
    : M disk InstalledPlugin :=
  plugin <- clone ext git_plugin (im_plugin_dir self) ;;
  d <- get ;;
  let requirements_file := path_join (get_plugin_dir plugin)
                             "requirements.txt" in
  let requirements_file :=
    if negb (isfile d requirements_file) then None
    else Some requirements_file in
  ok <- venv_install ext venv requirements_file ;;
  if negb ok then raise (Exception_ "Unable to install virtualenv.")
  else ret plugin.

(** [install] returns the installed plugin, or [None] after a rollback. *)
Definition install (ext : Externals) (self : PluginInstallManager)
    (plugin_info : dict) : M disk (option InstalledPlugin) :=
  url <- lift (getitem_str plugin_info "url") ;;
  let git_plugin := {| clone_url := url |} in
  plugin_id <- lift (getitem_str plugin_info "id") ;;
  let venv := {| venv_home := path_join (im_venv_dir self) plugin_id |} in
  fun d =>
    match install_body ext self git_plugin venv d with
    | (Ok plugin, d1) => (Ok (Some plugin), d1)
    | (Raise e, d1) =>
        if isinstance e CException then
          (uninstall self plugin_id ;;; ret None) d1
        else (Raise e, d1)
    end.

Definition get_plugin_path (self : PluginInstallManager)
    (plugin_id : string) : string :=
  path_join (im_plugin_dir self) plugin_id.

Definition venv_exists (self : PluginInstallManager) (d : disk)
    (plugin_id : string) : bool :=
  isdir d (path_join (im_venv_dir self) plugin_id).

(** ** PluginStateFilter *)

(** [obj[k] = v] *)
Definition setitem (k : string) (v : value) : M dict unit :=
  modify (fun obj => <[k := v]> obj).

(** The object a filter holds under [install_manager] or
    [execution_manager]: an instance of either manager class. *)
Inductive manager : Type :=
  | AnInstallManager (m : PluginInstallManager)
  | AnExecutionManager (m : ExecutionManager).

(** Attribute look-up on a manager: each class has the methods its
    definition lists, and asking for another raises [AttributeError]. *)
Definition attr_is_installed (m : manager) : result (disk -> string -> bool) :=
  match m with
  | AnInstallManager im => Ok (is_installed im)
  | AnExecutionManager _ =>
      Raise (AttributeError "'PluginExecutionManager' object has no attribute 'is_installed'")
  end.

Definition attr_get_plugin_path (m : manager) : result (string -> string) :=
  match m with
  | AnInstallManager im => Ok (get_plugin_path im)
  | AnExecutionManager _ =>
      Raise (AttributeError "'PluginExecutionManager' object has no attribute 'get_plugin_path'")
  end.

Definition attr_is_active (m : manager) : result (string -> bool) :=
  match m with
  | AnExecutionManager em => Ok (is_active em)
  | AnInstallManager _ =>
      Raise (AttributeError "'PluginInstallManager' object has no attribute 'is_active'")
  end.

Definition attr_is_enabled (m : manager) : result (string -> bool) :=
  match m with
  | AnExecutionManager em => Ok (is_enabled em)
  | AnInstallManager _ =>
      Raise (AttributeError "'PluginInstallManager' object has no attribute 'is_enabled'")
  end.

Record PluginStateFilter : Type := {
  sf_install_manager : manager;
  sf_execution_manager : manager;
}.

(** [PluginStateFilter(...)]: [__init__] has the two required positional
    parameters [install_manager] and [execution_manager]. *)
Definition PluginStateFilter_init (args : list manager)
    : result PluginStateFilter :=
  match args with
  | [install_manager; execution_manager] =>
      Ok {| sf_install_manager := install_manager;
            sf_execution_manager := execution_manager |}
  | [_] =>
      Raise (TypeError
               "__init__() missing 1 required positional argument: 'execution_manager'")
  | _ => Raise (TypeError "__init__() called with the wrong number of arguments")
  end.

Definition PluginStateFilter_filter (self : PluginStateFilter) (d : disk)
    : M dict unit :=
  is_installed_ <- lift (attr_is_installed (sf_install_manager self)) ;;
  obj <- get ;;
  plugin_id <- lift (getitem_str obj "id") ;;
  let installed := is_installed_ d plugin_id in
  setitem "installed" (VBool installed) ;;;
  is_active_ <- lift (attr_is_active (sf_execution_manager self)) ;;
  setitem "active" (VBool (is_active_ plugin_id)) ;;;
  is_enabled_ <- lift (attr_is_enabled (sf_install_manager self)) ;;
  setitem "enabled" (VBool (is_enabled_ plugin_id)) ;;;
  if installed then
    get_plugin_path_ <- lift (attr_get_plugin_path (sf_install_manager self)) ;;
    setitem "install_path" (VStr (get_plugin_path_ plugin_id))
  else ret tt.

(** ** PluginInfoFilter *)

(** [d.get(k)] on a dictionary that may hold no [k]. *)
Definition truthy_get (obj : dict) (k : string) : bool :=
  match obj !! k with Some v => truthy v | None => false end.

Fixpoint assoc (kvs : list (string * json)) (k : string) : option json :=
  match kvs with
  | [] => None
  | (k', v) :: rest => if String.eqb k' k then Some v else assoc rest k
  end.

(** [j[k]] for a string key [k] *)
Definition json_getitem (j : json) (k : string) : result json :=
  match j with
  | JObj kvs =>
      match assoc kvs k with Some v => Ok v | None => Raise (KeyError k) end
  | _ => Raise (TypeError "indices must be integers or object is not subscriptable")
  end.

(** [j.get(k, default)] on a dictionary *)
Definition json_get (j : json) (k : string) (default : json) : json :=
  match j with
  | JObj kvs => match assoc kvs k with Some v => v | None => default end
  | _ => default
  end.

Fixpoint has_dot (s : string) : bool :=
  match s with
  | EmptyString => false
  | String c s' => Ascii.eqb c "." || has_dot s'
  end.

Definition json_is_dot (j : json) : bool :=
  match j with JStr s => String.eqb s "." | _ => false end.

(** ['.' in j] *)
Definition json_contains_dot (j : json) : result bool :=
  match j with
  | JStr s => Ok (has_dot s)
  | JList l => Ok (existsb json_is_dot l)
  | JObj kvs => Ok (existsb (fun kv => String.eqb kv.1 ".") kvs)
  | _ => Raise (TypeError "argument is not iterable")
  end.

(** [s.rsplit('.', 1)] for an [s] that holds a dot: what comes before the
    last dot, and what comes after it. *)
Fixpoint rsplit_dot (s : string) : option (string * string) :=
  match s with
  | EmptyString => None
  | String c s' =>
      match rsplit_dot s' with
      | Some (m, k) => Some (String c m, k)
      | None => if Ascii.eqb c "." then Some (EmptyString, s') else None
      end
  end.

(** [j.rsplit('.', 1)], unpacked into two names *)
Definition json_rsplit (j : json) : result (string * string) :=
  match j with
  | JStr s =>
      match rsplit_dot s with
      | Some mc => Ok mc
      | None => Raise (ValueError "not enough values to unpack")
      end
  | _ => Raise (AttributeError "object has no attribute 'rsplit'")
  end.

Definition rbind {A B} (r : result A) (k : A -> result B) : result B :=
  match r with Ok a => k a | Raise e => Raise e end.

(** The second [try] block of [PluginInfoFilter.filter]: [None] when the
    block returns [obj] early, the resolved attribute when it runs to its
    end. *)
Definition resolve_service (ext : Externals) (install_path : string)
    (plugin_info : json) : result (option value) :=
  rbind (json_getitem plugin_info "service") (fun fully_qualified =>
  rbind (json_contains_dot fully_qualified) (fun dotted =>
  if negb dotted then Ok None
  else
    rbind (json_getitem plugin_info "service") (fun service =>
    rbind (json_rsplit service) (fun '(mod_, cls) =>
    rbind (import_module ext install_path mod_) (fun module =>
    match module cls with
    | Some attr => Ok (Some attr)
    | None => Raise (AttributeError "module has no such attribute")
    end))))).

(** [obj.setdefault("errors", []).append(msg)] *)
Definition append_error (msg : string) : M dict unit :=
  obj <- get ;;
  match obj !! "errors" with
  | None => setitem "errors" (VJson (JList [JStr msg]))
  | Some (VJson (JList l)) => setitem "errors" (VJson (JList (l ++ [JStr msg])))
  | Some _ => raise (AttributeError "object has no attribute 'append'")
  end.

Definition PluginInfoFilter_filter (ext : Externals) (d : disk)
    : M dict unit :=
  obj <- get ;;
  if negb (truthy_get obj "installed") then ret tt
  else
    install_path <- lift (getitem_str obj "install_path") ;;
    match rbind (read_file d (path_join install_path "plugin.json"))
                (json_loads ext) with
    | Raise e =>
        if isinstance e CIOError then lift (getitem obj "name") ;;; ret tt
        else if isinstance e CValueError then
          lift (getitem obj "name") ;;; ret tt
        else raise e
    | Ok plugin_info =>
        match resolve_service ext install_path plugin_info with
        | Ok None => ret tt
        | Raise e =>
            if isinstance e CAttributeError then
              append_error "Possibly bad service specification in plugin.json"
            else if isinstance e CImportError then
              name <- lift (getitem_str obj "name") ;;
              append_error ("Failed to import dependencies for " +:+ name)
            else if isinstance e CKeyError then
              name <- lift (getitem_str obj "name") ;;
              append_error
                ("Required field not found in plugin.json for " +:+ name)
            else raise e
        | Ok (Some module) =>
            service <- lift (json_getitem plugin_info "service") ;;
            setitem "deps" (VJson (json_get plugin_info "deps" JNull)) ;;;
            setitem "package_path" (VJson service) ;;;
            setitem "config" (VJson (json_get plugin_info "config" (JObj []))) ;;;
            setitem "start_timeout"
              (VJson (json_get plugin_info "start_timeout" (JNum 30))) ;;;
            setitem "service_cls" module
        end
    end.

(** ** PluginManager *)

Record PluginManager : Type := {
  install_manager : PluginInstallManager;
  execution_manager : ExecutionManager;
}.

(** [extract_plugin_info] builds its list of filters, then runs each on the
    descriptor. *)
Definition extract_plugin_info (ext : Externals) (self : PluginManager)
    (d : disk) : M dict unit :=
  state_filter <- lift (PluginStateFilter_init
                          [AnInstallManager (install_manager self)]) ;;
  PluginStateFilter_filter state_filter d ;;;
  PluginInfoFilter_filter ext d.

(** ** The launcher *)

(** [handle_weave_launch] in [app.py], from the filter to the look-up of the
    service class: the value found under ["cls"]. *)
Definition launch_service_class (ext : Externals) (d : disk)
    (plugin_dir : string) : result value :=
  let obj : dict :=
    <["installed" := VBool true]> (<["install_path" := VStr plugin_dir]> ∅) in
  match PluginInfoFilter_filter ext d obj with
  | (Ok _, plugin_info) => getitem plugin_info "cls"
  | (Raise e, _) => Raise e
  end.

(** The entries the active set holds for an id. *)
Definition entries_for (plugin_id : string) (active : gmap string Service)
    : list (string * Service) :=
  filter (fun kv => kv.1 = plugin_id) (map_to_list active).

(** ** Sequences of operations on the execution manager *)

Inductive op : Type :=
  | Enable (plugin_id : string)
  | Disable (plugin_id : string)
  | UpdateToken (plugin_id : string) (token : string)
  | Activate (plugin_info : dict)
  | Deactivate (plugin_id : string).

Definition step (o : op) : M ExecutionManager bool :=
  match o with
  | Enable plugin_id => enable plugin_id
  | Disable plugin_id => disable plugin_id
  | UpdateToken plugin_id token => update_token plugin_id token
  | Activate plugin_info => activate plugin_info
  | Deactivate plugin_id => deactivate plugin_id
  end.

(** The manager after an operation, whether it returned or raised. *)
Definition exec (o : op) (em : ExecutionManager) : ExecutionManager :=
  (step o em).2.

Definition run (ops : list op) (em : ExecutionManager) : ExecutionManager :=
  fold_left (fun em o => exec o em) ops em.

(** Every state the manager goes through, the first one included. *)
Fixpoint states (ops : list op) (em : ExecutionManager)
    : list ExecutionManager :=
  em :: match ops with
        | [] => []
        | o :: rest => states rest (exec o em)
        end.

(** No [disable] of the sequence is called on a plugin that is active when
    the call is made. *)
Fixpoint disables_inactive (ops : list op) (em : ExecutionManager) : bool :=
  match ops with
  | [] => true
  | o :: rest =>
      match o with
      | Disable plugin_id => negb (is_active em plugin_id)
      | _ => true
      end && disables_inactive rest (exec o em)
  end.

Definition active_implies_enabled (em : ExecutionManager) : Prop :=
  forall plugin_id,
    is_active em plugin_id = true -> is_enabled em plugin_id = true.

(** ** Frame conditions *)

(** Two managers that differ in the log of service calls at most. *)
Definition same_tables (em em' : ExecutionManager) : Prop :=
  em_plugin_dir em' = em_plugin_dir em
  /\ em_venv_dir em' = em_venv_dir em
  /\ database em' = database em
  /\ active_plugins em' = active_plugins em.

(** A computation on a descriptor that writes under the given keys only. *)
Definition writes_only (keys : list string) {A} (m : M dict A) : Prop :=
  forall obj r obj',
    m obj = (r, obj') -> forall k, ~ In k keys -> obj' !! k = obj !! k.


(** ** GithubRepositoryLister *)

(** A repository of the organization as the GitHub client reports it: its
    name, clone url and description (which may be [None]), and the names
    found in its root directory. *)
Record Repository : Type := {
  repo_name : string;
  repo_clone_url : string;
  repo_description : option string;
  repo_root : list string;
}.

(** ["plugin.json" in contents] *)
Definition has_manifest (repo : Repository) : bool :=
  existsb (String.eqb "plugin.json") (repo_root repo).

(** The dictionary [list_plugins] yields for a repository. *)
Definition descriptor_of (ext : Externals) (repo : Repository) : dict :=
  <["id" := VStr (get_plugin_id ext (repo_clone_url repo))]>
    (<["name" := VStr (repo_name repo)]>
       (<["url" := VStr (repo_clone_url repo)]>
          (<["description" :=
               match repo_description repo with
               | Some text => VStr text
               | None => VNone
               end]> ∅))).

(** [list_plugins], given the repositories of the organization: one
    descriptor for each repository with a [plugin.json] at its root, in the
    order of the repositories. *)
Definition list_plugins (ext : Externals) (repos : list Repository)
    : list dict :=
  map (descriptor_of ext) (List.filter has_manifest repos).

(** ** PluginManager: the catalog and the request handlers *)

(** The fields of a plugin summary, in the order [convert_plugin] reads
    them. *)
Definition summary_fields : list string :=
  ["id"; "name"; "description"; "url"; "installed"; "enabled"; "active"].

(** [{x: plugin[x] for x in fields}], added to [res] *)
Fixpoint pick_fields (fields : list string) (plugin res : dict)
    : result dict :=
  match fields with
  | [] => Ok res
  | x :: rest =>
      match plugin !! x with
      | Some v => pick_fields rest plugin (<[x := v]> res)
      | None => Raise (KeyError x)
      end
  end.

Definition convert_plugin (plugin : dict) : result dict :=
  rbind (pick_fields summary_fields plugin ∅) (fun res =>
  if truthy_get plugin "errors" then
    rbind (getitem plugin "errors") (fun errors =>
    Ok (<["errors" := errors]> res))
  else Ok res).

(** Truth value of a dictionary: an empty one is false. *)
Definition dict_truthy (d : dict) : bool :=
  negb (bool_decide (size d = 0%nat)).

(** The plugin manager with its catalog [plugins], and the disk its
    managers work on. *)
Record Facade : Type := {
  fa_manager : PluginManager;
  fa_plugins : gmap string dict;
  fa_disk : disk;
}.

Definition set_plugins (plugins : gmap string dict) : M Facade unit :=
  modify (fun fa => {| fa_manager := fa_manager fa;
                       fa_plugins := plugins;
                       fa_disk := fa_disk fa |}).

(** Runs a computation of the install manager on the disk. *)
Definition on_disk {A} (m : M disk A) : M Facade A :=
  fun fa =>
    match m (fa_disk fa) with
    | (r, d) => (r, {| fa_manager := fa_manager fa;
                       fa_plugins := fa_plugins fa;
                       fa_disk := d |})
    end.

(** Runs a computation of the execution manager. *)
Definition on_execution_manager {A} (m : M ExecutionManager A) : M Facade A :=
  fun fa =>
    match m (execution_manager (fa_manager fa)) with
    | (r, em) =>
        (r, {| fa_manager :=
                 {| install_manager := install_manager (fa_manager fa);
                    execution_manager := em |};
               fa_plugins := fa_plugins fa;
               fa_disk := fa_disk fa |})
    end.

(** [self.plugins.get(plugin_id)], and whether [not plugin_info] lets it
    through: a missing entry and an empty descriptor are both refused. *)
Definition find_plugin (fa : Facade) (plugin_id : string) : option dict :=
  match fa_plugins fa !! plugin_id with
  | Some plugin_info => if dict_truthy plugin_info then Some plugin_info else None
  | None => None
  end.

(** [updated = self.extract_plugin_info(plugin_info)] followed by
    [self.plugins[plugin_id] = updated], for a [plugin_info] taken from the
    catalog under [plugin_id]: the filters work on the object the catalog
    holds, so what they wrote is in the catalog even when they raise. *)
Definition refresh_entry (ext : Externals) (plugin_id : string)
    (plugin_info : dict) : M Facade dict :=
  fun fa =>
    match extract_plugin_info ext (fa_manager fa) (fa_disk fa) plugin_info with
    | (r, updated) =>
        (match r with Ok _ => Ok updated | Raise e => Raise e end,
         {| fa_manager := fa_manager fa;
            fa_plugins := <[plugin_id := updated]> (fa_plugins fa);
            fa_disk := fa_disk fa |})
    end.

Definition error_body (msg : string) : dict := {[ "error" := VStr msg ]}.

Definition PluginManager_install (ext : Externals) (params : dict)
    : M Facade (Z * dict) :=
  plugin_id <- lift (getitem_str params "id") ;;
  fa <- get ;;
  match find_plugin fa plugin_id with
  | None => ret (404, error_body "Not found.")
  | Some plugin_info =>
      plugin <- on_disk (install ext (install_manager (fa_manager fa))
                           plugin_info) ;;
      match plugin with
      | None => ret (400, error_body "Failed to install library.")
      | Some _ =>
          updated <- refresh_entry ext plugin_id plugin_info ;;
          body <- lift (convert_plugin updated) ;;
          ret (200, body)
      end
  end.

Definition PluginManager_uninstall (ext : Externals) (params : dict)
    : M Facade (Z * dict) :=
  plugin_id <- lift (getitem_str params "id") ;;
  fa <- get ;;
  match find_plugin fa plugin_id with
  | None => ret (404, error_body "Not found.")
  | Some plugin_info =>
      on_disk (uninstall (install_manager (fa_manager fa)) plugin_id) ;;;
      updated <- refresh_entry ext plugin_id plugin_info ;;
      body <- lift (convert_plugin updated) ;;
      ret (200, body)
  end.

(** [e.message]: an exception of Python 3 has no such attribute. *)
Definition exn_message (e : exn) : result string :=
  Raise (AttributeError "exception object has no attribute 'message'").

(** [params["token"]], on which [update_token] calls [strip]. *)
Definition token_param (params : dict) : result string :=
  match params !! "token" with
  | Some (VStr token) => Ok token
  | Some _ => Raise (AttributeError "object has no attribute 'strip'")
  | None => Raise (KeyError "token")
  end.

Definition PluginManager_update_token (params : dict) : M Facade (Z * dict) :=
  plugin_id <- lift (getitem_str params "id") ;;
  fa <- get ;;
  match find_plugin fa plugin_id with
  | None => ret (404, error_body "Not found.")
  | Some plugin_info =>
      token <- lift (token_param params) ;;
      fun fa1 =>
        match on_execution_manager (update_token plugin_id token) fa1 with
        | (Raise e, fa2) =>
            if isinstance e CValueError then
              (msg <- lift (exn_message e) ;; ret (400, error_body msg)) fa2
            else (Raise e, fa2)
        | (Ok _, fa2) =>
            (body <- lift (convert_plugin plugin_info) ;; ret (200, body)) fa2
        end
  end.

(** The loop of [start] over the descriptors the lister yields. *)
Fixpoint add_plugins (ext : Externals) (repos : list dict) : M Facade unit :=
  match repos with
  | [] => ret tt
  | repo :: rest =>
      fa <- get ;;
      match extract_plugin_info ext (fa_manager fa) (fa_disk fa) repo with
      | (Raise e, _) => raise e
      | (Ok _, plugin_info) =>
          plugin_id <- lift (getitem_str plugin_info "id") ;;
          set_plugins (<[plugin_id := plugin_info]> (fa_plugins fa)) ;;;
          add_plugins ext rest
      end
  end.

(** [start], given the repositories of the organization. *)
Definition PluginManager_start (ext : Externals) (repos : list Repository)
    : M Facade unit :=
  set_plugins ∅ ;;; add_plugins ext (list_plugins ext repos).

(** The manager after the given calls were made on services. *)
Definition add_calls (em : ExecutionManager) (cs : list call)
    : ExecutionManager :=
  {| em_plugin_dir := em_plugin_dir em;
     em_venv_dir := em_venv_dir em;
     database := database em;
     active_plugins := active_plugins em;
     calls := (calls em ++ cs)%list |}.

(** The manager after [plugin_id] was recorded as running [service]. *)
Definition record_active (em : ExecutionManager) (plugin_id : string)
    (service : Service) : ExecutionManager :=
  {| em_plugin_dir := em_plugin_dir em;
     em_venv_dir := em_venv_dir em;
     database := database em;
     active_plugins := <[plugin_id := service]> (active_plugins em);
     calls := calls em |}.

(** The error messages a descriptor held are still there, in order and at
    the front, in what it has become. *)
Definition errors_extend (obj obj' : dict) : Prop :=
  forall l,
    obj !! "errors" = Some (VJson (JList l)) ->
    exists rest, obj' !! "errors" = Some (VJson (JList (l ++ rest))).

(** A computation on a descriptor that only adds to its error messages. *)
Definition extends_errors {A} (m : M dict A) : Prop :=
  forall obj r obj', m obj = (r, obj') -> errors_extend obj obj'.
(** ** Sample plugins, managers and disks *)

(** A service that starts, and reports ready to a wait of at least [t]. *)
Definition ready_after (t : Z) : Service :=
  {| service_start := Ok tt;
     wait_for_start := fun timeout => Ok (t <=? timeout);
     service_stop := Ok tt |}.

(** A class whose instances all behave as [s]. *)
Definition class_of (s : Service) : value :=
  VObj {| py_call := fun _ _ _ => Ok s |}.

(** What [GithubRepositoryLister.list_plugins] yields for a repository. *)
Definition listed (plugin_id name url description : string) : dict :=
  <["id" := VStr plugin_id]>
    (<["name" := VStr name]>
       (<["url" := VStr url]>
          (<["description" := VStr description]> ∅))).

Definition p1_listed : dict :=
  listed "p1" "demo" "https://example/repo" "a demo plugin".

(** The descriptor of [p1] with a service class under ["cls"]. *)
Definition p1_info (s : Service) : dict := <["cls" := class_of s]> p1_listed.

Definition p1_row (e : bool) (token : option string) : PluginData :=
  {| enabled := e; app_secret_token := token |}.

(** A manager that knows [p1], not yet enabled and without a token. *)
Definition fresh_manager : ExecutionManager :=
  new_execution_manager "/plugins" "/venv" {[ "p1" := p1_row false None ]}.

(** A manager in which [p1] is enabled, has a token and is not active. *)
Definition ready_manager : ExecutionManager :=
  new_execution_manager "/plugins" "/venv"
    {[ "p1" := p1_row true (Some "secret") ]}.

(** [p1] is enabled, given a token, activated, then disabled. *)
Definition disable_while_active : list op :=
  [Enable "p1"; UpdateToken "p1" "secret"; Activate (p1_info (ready_after 1));
   Disable "p1"].

(** A service that starts at once and whose [service_stop] raises. *)
Definition stubborn : Service :=
  {| service_start := Ok tt;
     wait_for_start := fun _ => Ok true;
     service_stop := Raise (Exception_ "cannot stop") |}.

(** A manager in which [p1] is enabled and running as [s]. *)
Definition active_manager (s : Service) : ExecutionManager :=
  {| em_plugin_dir := "/plugins"; em_venv_dir := "/venv";
     database := {[ "p1" := p1_row true (Some "secret") ]};
     active_plugins := {[ "p1" := s ]};
     calls := [] |}.

(** The descriptor of [p1] for a service that needs 45 time units to get
    ready, with the [start_timeout] of 60 its manifest declares. *)
Definition p1_slow_info : dict :=
  <["start_timeout" := VJson (JNum 60)]> (p1_info (ready_after 45)).

(** The attributes of the module [demo]: one class, [Main]. *)
Definition demo_module (attr : string) : option value :=
  if String.eqb attr "Main" then Some (class_of (ready_after 1)) else None.

Definition repo_url : string := "https://example/repo".

(** The MD5 digest of [repo_url], in hexadecimal. *)
Definition repo_id : string := "a95db2394f82ad466d8924b9c320cd8b".

(** Collaborators that all succeed: the clone creates the directory with a
    manifest, the environment is created, [pip] succeeds; the one manifest
    text there is parses to a dictionary whose [service] is [demo.Main]. *)
Definition all_good : Externals :=
  {| md5_hexdigest := fun url =>
       if String.eqb url repo_url then repo_id
       else "d41d8cd98f00b204e9800998ecf8427e";
     clone_from := fun _ dest =>
       modify (fun d => <[path_join dest "plugin.json" := File "demo manifest"]>
                          (<[dest := Dir]> d));
     create_environment := fun home => modify (fun d => <[home := Dir]> d);
     check_call := fun _ => ret tt;
     json_loads := fun text =>
       if String.eqb text "demo manifest"
       then Ok (JObj [("service", JStr "demo.Main")])
       else Raise (ValueError "Expecting value");
     import_module := fun _ name =>
       if String.eqb name "demo" then Ok demo_module
       else Raise (ImportError "No module named that") |}.

(** As [all_good], with a source that cannot be cloned: nothing is written. *)
Definition unreachable_source : Externals :=
  {| md5_hexdigest := md5_hexdigest all_good;
     clone_from := fun _ _ => raise GitCommandError;
     create_environment := create_environment all_good;
     check_call := check_call all_good;
     json_loads := json_loads all_good;
     import_module := import_module all_good |}.

Definition sample_install_manager : PluginInstallManager :=
  {| im_plugin_dir := "/plugins"; im_venv_dir := "/venv" |}.

(** What the registry lists for the repository at [repo_url]. *)
Definition repo_listed : dict :=
  listed repo_id "demo" repo_url "a demo plugin".

(** The two roots, and nothing installed. *)
Definition empty_roots : disk :=
  <["/plugins" := Dir]> (<["/venv" := Dir]> ∅).

(** The plugin of [repo_url] installed: its source and its environment. *)
Definition installed_disk : disk :=
  <[path_join "/plugins" repo_id := Dir]>
    (<[path_join (path_join "/plugins" repo_id) "plugin.json"
        := File "demo manifest"]>
       (<[path_join "/venv" repo_id := Dir]>
          (<[path_join (path_join "/venv" repo_id) "bin" := Dir]> empty_roots))).

(** The source of the plugin is there, its environment is not. *)
Definition source_only_disk : disk :=
  <[path_join "/plugins" repo_id := Dir]> empty_roots.

(** [p1] installed under [/plugins/p1], with the demo manifest. *)
Definition p1_disk : disk :=
  <["/plugins/p1" := Dir]>
    (<["/plugins/p1/plugin.json" := File "demo manifest"]>
       (<["/venv/p1" := Dir]> empty_roots)).

(** The descriptor of [p1] as the state filter would leave it for a plugin
    that is installed, enabled and not active. *)
Definition p1_with_state : dict :=
  <["installed" := VBool true]>
    (<["active" := VBool false]>
       (<["enabled" := VBool true]>
          (<["install_path" := VStr "/plugins/p1"]> p1_listed))).

(** As [all_good], with a source that declares requirements [pip] fails to
    install. *)
Definition failing_requirements : Externals :=
  {| md5_hexdigest := md5_hexdigest all_good;
     clone_from := fun _ dest =>
       modify (fun d => <[path_join dest "requirements.txt" := File "nosuchpackage"]>
                          (<[dest := Dir]> d));
     create_environment := create_environment all_good;
     check_call := fun _ => raise CalledProcessError;
     json_loads := json_loads all_good;
     import_module := import_module all_good |}.

Definition sample_plugin_manager : PluginManager :=
  {| install_manager := sample_install_manager;
     execution_manager := ready_manager |}.

(** A service whose [service_start] raises. *)
Definition crashing : Service :=
  {| service_start := Raise (Exception_ "cannot start");
     wait_for_start := fun _ => Ok false;
     service_stop := Ok tt |}.

(** The descriptor of [p1] with a service class and without a name. *)
Definition p1_nameless (s : Service) : dict :=
  <["cls" := class_of s]> (<["id" := VStr "p1"]> ∅).

(** A repository with a manifest at its root, and one without. *)
Definition demo_repo : Repository :=
  {| repo_name := "demo"; repo_clone_url := repo_url;
     repo_description := Some "a demo plugin";
     repo_root := ["README.md"; "plugin.json"; "demo.py"] |}.

Definition plain_repo : Repository :=
  {| repo_name := "notes"; repo_clone_url := "https://example/notes";
     repo_description := None;
     repo_root := ["README.md"] |}.

(** A disk with a stale copy of the plugin's source. *)
Definition stale_disk : disk :=
  <[path_join (path_join "/plugins" repo_id) "old.py" := File "stale"]>
    source_only_disk.

(** As [all_good], with a plugin whose module cannot be imported. *)
Definition missing_dependency : Externals :=
  {| md5_hexdigest := md5_hexdigest all_good;
     clone_from := clone_from all_good;
     create_environment := create_environment all_good;
     check_call := check_call all_good;
     json_loads := json_loads all_good;
     import_module := fun _ _ => Raise (ImportError "No module named weavelib") |}.

(** As [all_good], with manifests that hold a list, or a [service] without
    a dot, or a timeout and a configuration of their own. *)
Definition with_manifest (manifest : json) : Externals :=
  {| md5_hexdigest := md5_hexdigest all_good;
     clone_from := clone_from all_good;
     create_environment := create_environment all_good;
     check_call := check_call all_good;
     json_loads := fun _ => Ok manifest;
     import_module := import_module all_good |}.

(** The descriptor of [p1] with an error message from before. *)
Definition p1_with_errors : dict :=
  <["errors" := VJson (JList [JStr "earlier message"])]> p1_with_state.

(** A descriptor as a working projection would leave it, with a broken
    manifest reported and the paths and class the filters add. *)
Definition p1_projected : dict :=
  <["errors" := VJson (JList [JStr "Possibly bad service specification in plugin.json"])]>
    (<["service_cls" := class_of (ready_after 1)]> p1_with_state).

(** A plugin manager with [p1] in its catalog. *)
Definition facade_with_p1 : Facade :=
  {| fa_manager := sample_plugin_manager;
     fa_plugins := {[ "p1" := p1_projected ]};
     fa_disk := p1_disk |}.

Definition new_facade : Facade :=
  {| fa_manager := sample_plugin_manager;
     fa_plugins := ∅;
     fa_disk := empty_roots |}.

(** The body of a request about [p1]. *)
Definition p1_params : dict := {[ "id" := VStr "p1" ]}.

(** * Properties *)

(** ** Strings *)

Lemma lstrip_blank s : blank s = true -> lstrip s = EmptyString.
Proof.
  induction s as [|c s IH]; simpl; [reflexivity|].
  destruct (isspace c); simpl; [exact IH | discriminate].
Qed.

Lemma blank_lstrip s : blank (lstrip s) = blank s.
Proof.
  induction s as [|c s IH]; simpl; [reflexivity|].
  destruct (isspace c) eqn:Hc; simpl; [exact IH | now rewrite Hc].
Qed.

Lemma rstrip_not_blank s : blank s = false -> rstrip s <> EmptyString.
Proof.
  induction s as [|c s IH]; simpl; [discriminate|].
  intros Hb. destruct (rstrip s) eqn:Hr; [|discriminate].
  destruct (isspace c); simpl in Hb; [|discriminate].
  exfalso. now apply IH.
Qed.

(** [not token.strip()] holds exactly for the blank tokens. *)
Lemma strip_truthy s : str_truthy (strip s) = negb (blank s).
Proof.
  unfold strip. destruct (blank s) eqn:Hb; simpl.
  - now rewrite lstrip_blank.
  - rewrite <- blank_lstrip in Hb. apply rstrip_not_blank in Hb.
    destruct (rstrip (lstrip s)); [congruence | reflexivity].
Qed.

(** ** update_token *)

(** C8. A blank token (empty, or white space only) makes [update_token]
    raise [ValueError("Invalid token.")] and leaves the manager, hence the
    persisted record and both of its fields, as it was. A token that is not
    blank is written to the record of the plugin, whose [enabled] flag is
    kept; when the plugin has no record, [update_token] raises
    [ValueError("Unable to find plugin.")] and changes nothing. *)
Theorem update_token_blank_rejected_else_persisted :
  forall (em : ExecutionManager) (plugin_id token : string),
    (blank token = true ->
       update_token plugin_id token em
       = (Raise (ValueError "Invalid token."), em))
    /\ (blank token = false ->
        forall row, database em !! plugin_id = Some row ->
          exists em',
            update_token plugin_id token em = (Ok true, em')
            /\ database em'
               = <[plugin_id := {| enabled := enabled row;
                                   app_secret_token := Some token |}]>
                   (database em)
            /\ active_plugins em' = active_plugins em
            /\ calls em' = calls em)
    /\ (blank token = false -> database em !! plugin_id = None ->
          update_token plugin_id token em
          = (Raise (ValueError "Unable to find plugin."), em)).
Proof.
  intros em plugin_id token. unfold update_token.
  rewrite strip_truthy, negb_involutive.
  split; [|split].
  - intros ->. reflexivity.
  - intros -> row Hrow. unfold query. rewrite Hrow.
    eexists. split; [reflexivity|]. simpl. auto.
  - intros -> Hnone. unfold query. now rewrite Hnone.
Qed.

Lemma update_token_witness :
  update_token "p1" "   " fresh_manager
  = (Raise (ValueError "Invalid token."), fresh_manager)
  /\ (exists em',
        update_token "p1" "secret" fresh_manager = (Ok true, em')
        /\ database em'
           = <["p1" := {| enabled := false; app_secret_token := Some "secret" |}]>
               (database fresh_manager)
        /\ active_plugins em' = active_plugins fresh_manager
        /\ calls em' = calls fresh_manager)
  /\ update_token "p2" "secret" fresh_manager
     = (Raise (ValueError "Unable to find plugin."), fresh_manager).
Proof.
  destruct (update_token_blank_rejected_else_persisted fresh_manager "p1" "   ")
    as [Hblank _].
  destruct (update_token_blank_rejected_else_persisted fresh_manager "p1" "secret")
    as [_ [Hstored _]].
  destruct (update_token_blank_rejected_else_persisted fresh_manager "p2" "secret")
    as [_ [_ Hmissing]].
  split; [apply Hblank; reflexivity|].
  split; [apply (Hstored eq_refl (p1_row false None)); reflexivity|].
  apply Hmissing; reflexivity.
Defined.

(** ** What the operations leave alone *)

Lemma same_tables_refl em : same_tables em em.
Proof. repeat split. Qed.

Lemma same_tables_trans em1 em2 em3 :
  same_tables em1 em2 -> same_tables em2 em3 -> same_tables em1 em3.
Proof.
  intros (?&?&?&?) (?&?&?&?). repeat split; congruence.
Qed.

Lemma same_tables_enabled em em' plugin_id :
  same_tables em em' -> is_enabled em' plugin_id = is_enabled em plugin_id.
Proof. intros (_&_&Hdb&_). unfold is_enabled. now rewrite Hdb. Qed.

Lemma same_tables_active em em' plugin_id :
  same_tables em em' -> is_active em' plugin_id = is_active em plugin_id.
Proof. intros (_&_&_&Ha). unfold is_active. now rewrite Ha. Qed.

#[local] Hint Resolve same_tables_refl : core.

(** Unfolds the monad and splits on what each call answered. *)
Ltac step_through :=
  repeat (unfold bind, lift, get, ret, raise, modify in *; simpl in *;
          match goal with
          | H : (_, _) = (_, _) |- _ => inversion H; subst; clear H
          | H : context [match ?x with _ => _ end] |- _ => destruct x eqn:?
          | H : context [if ?x then _ else _] |- _ => destruct x eqn:?
          end).

Lemma log_tables c em r em' : log c em = (r, em') -> same_tables em em'.
Proof. unfold log. intros H. step_through. repeat split. Qed.

Lemma run_plugin_tables service timeout em r em' :
  run_plugin service timeout em = (r, em') -> same_tables em em'.
Proof.
  unfold run_plugin, log. intros H. step_through; repeat split.
Qed.

Lemma stop_plugin_tables service em r em' :
  stop_plugin service em = (r, em') -> same_tables em em'.
Proof.
  unfold stop_plugin, log. intros H. step_through; repeat split.
Qed.

Lemma construct_tables cls token config venv_dir em r em' :
  construct cls token config venv_dir em = (r, em') -> same_tables em em'.
Proof.
  unfold construct, log. intros H. destruct cls; step_through; repeat split.
Qed.

Lemma set_active_eq plugin_id service em r em' :
  set_active plugin_id service em = (r, em') ->
  r = Ok tt /\ em_plugin_dir em' = em_plugin_dir em
  /\ em_venv_dir em' = em_venv_dir em
  /\ database em' = database em
  /\ calls em' = calls em
  /\ active_plugins em' = <[plugin_id := service]> (active_plugins em).
Proof. unfold set_active, modify. intros H. inversion H. simpl. auto 10. Qed.

Lemma activate_inv info em r em' :
  activate info em = (r, em') ->
  database em' = database em
  /\ ((active_plugins em' = active_plugins em
       /\ (r = Ok true ->
           em' = em /\
           exists plugin_id,
             getitem_str info "id" = Ok plugin_id
             /\ is_enabled em plugin_id = true
             /\ is_active em plugin_id = true))
      \/ (exists plugin_id service,
            getitem_str info "id" = Ok plugin_id
            /\ is_enabled em plugin_id = true
            /\ is_active em plugin_id = false
            /\ r = Ok true
            /\ active_plugins em' = <[plugin_id := service]> (active_plugins em))).
Proof.
  unfold activate, get_plugin_data. intros H.
  step_through.
  all: repeat match goal with
       | H : construct _ _ _ _ _ = _ |- _ => apply construct_tables in H
       | H : run_plugin _ _ _ = _ |- _ => apply run_plugin_tables in H
       | H : set_active _ _ _ = _ |- _ => apply set_active_eq in H
       end.
  all: unfold same_tables in *.
  all: repeat match goal with H : _ /\ _ |- _ => destruct H end.
  all: rewrite ?negb_true_iff, ?negb_false_iff in *.
  all: (split; [simpl; congruence|]).
  all: try (left; split; [simpl; congruence|]; intros Hr; 
            first [ discriminate Hr 
                  | split; [reflexivity|]; eexists; repeat split; 
                    first [reflexivity | eassumption] ]).
  right. exists a, a2. simpl. repeat split; auto; congruence.
Qed.

Lemma is_enabled_lookup em plugin_id :
  is_enabled em plugin_id
  = match database em !! plugin_id with
    | Some row =>
        enabled row &&
        match app_secret_token row with
        | None => false
        | Some token => 0 <? Z.of_nat (String.length token)
        end
    | None => false
    end.
Proof. unfold is_enabled, query. now destruct (database em !! plugin_id). Qed.

Lemma enable_effect plugin_id em r em' :
  enable plugin_id em = (r, em') ->
  active_plugins em' = active_plugins em
  /\ (forall id, is_enabled em id = true -> is_enabled em' id = true).
Proof.
  unfold enable, set_database, query. intros H.
  destruct (database em !! plugin_id) as [row|] eqn:Hrow; step_through; auto.
  split; [reflexivity|]. intros id. rewrite !is_enabled_lookup. simpl.
  unfold save. destruct (decide (plugin_id = id)) as [->|Hne].
  - rewrite lookup_insert_eq, Hrow. simpl. now rewrite andb_true_iff.
  - now rewrite lookup_insert_ne.
Qed.

Lemma disable_effect plugin_id em r em' :
  disable plugin_id em = (r, em') ->
  active_plugins em' = active_plugins em
  /\ (forall id, id <> plugin_id -> is_enabled em' id = is_enabled em id).
Proof.
  unfold disable, set_database, query. intros H.
  destruct (database em !! plugin_id) as [row|] eqn:Hrow; step_through; auto.
  split; [reflexivity|]. intros id Hne. rewrite !is_enabled_lookup. simpl.
  unfold save. now rewrite lookup_insert_ne.
Qed.

Lemma not_blank_length token :
  blank token = false -> (0 <? Z.of_nat (String.length token)) = true.
Proof. destruct token; simpl; [discriminate | intros _; apply Z.ltb_lt; lia]. Qed.

Lemma update_token_effect plugin_id token em r em' :
  update_token plugin_id token em = (r, em') ->
  active_plugins em' = active_plugins em
  /\ (forall id, is_enabled em id = true -> is_enabled em' id = true).
Proof.
  unfold update_token, set_database, query. rewrite strip_truthy, negb_involutive.
  intros H. destruct (blank token) eqn:Hb.
  { step_through; auto. }
  destruct (database em !! plugin_id) as [row|] eqn:Hrow; step_through; auto.
  split; [reflexivity|]. intros id. rewrite !is_enabled_lookup. simpl.
  unfold save. destruct (decide (plugin_id = id)) as [->|Hne].
  - rewrite lookup_insert_eq, Hrow. simpl. rewrite !andb_true_iff.
    intros [-> _]. split; [reflexivity | now apply not_blank_length].
  - now rewrite lookup_insert_ne.
Qed.

Lemma deactivate_tables plugin_id em r em' :
  deactivate plugin_id em = (r, em') -> same_tables em em'.
Proof.
  unfold deactivate. intros H. step_through; auto; repeat split.
Qed.

(** ** Active implies enabled *)

Lemma step_preserves o em :
  match o with
  | Disable plugin_id => is_active em plugin_id = false
  | _ => True
  end ->
  active_implies_enabled em -> active_implies_enabled (exec o em).
Proof.
  unfold exec. intros Hguard Hinv id.
  destruct (step o em) as [r em'] eqn:Hstep. simpl.
  destruct o as [p|p|p token|info|p]; simpl in Hstep.
  - apply enable_effect in Hstep as [Ha Hen].
    unfold is_active. rewrite Ha. intros Hact. now apply Hen, Hinv.
  - apply disable_effect in Hstep as [Ha Hen].
    unfold is_active. rewrite Ha. intros Hact.
    destruct (decide (id = p)) as [->|Hne].
    + unfold is_active in Hguard. congruence.
    + rewrite Hen by assumption. now apply Hinv.
  - apply update_token_effect in Hstep as [Ha Hen].
    unfold is_active. rewrite Ha. intros Hact. now apply Hen, Hinv.
  - apply activate_inv in Hstep as [Hdb Hcases].
    rewrite !is_enabled_lookup, Hdb, <- is_enabled_lookup.
    destruct Hcases as [[Ha _]|(p & service & _ & Hen & _ & _ & Ha)];
      unfold is_active; rewrite Ha.
    + apply Hinv.
    + destruct (decide (p = id)) as [->|Hne]; [intros _; exact Hen|].
      rewrite lookup_insert_ne by assumption. apply Hinv.
  - apply deactivate_tables in Hstep.
    rewrite (same_tables_active _ _ _ Hstep), (same_tables_enabled _ _ _ Hstep).
    apply Hinv.
Qed.

Lemma states_preserve ops :
  forall em,
    active_implies_enabled em ->
    disables_inactive ops em = true ->
    Forall active_implies_enabled (states ops em).
Proof.
  induction ops as [|o rest IH]; intros em Hinv Hguard; simpl.
  - constructor; [assumption | constructor].
  - constructor; [assumption|].
    simpl in Hguard. apply andb_true_iff in Hguard as [Ho Hrest].
    apply IH; [|assumption].
    apply step_preserves; [|assumption].
    destruct o; try exact I. now apply negb_true_iff.
Qed.

Lemma new_manager_invariant plugin_dir venv_dir db :
  active_implies_enabled (new_execution_manager plugin_dir venv_dir db).
Proof.
  intros id. unfold is_active, new_execution_manager. simpl.
  rewrite lookup_empty. intros H. apply bool_decide_eq_true in H.
  destruct H as [? H]. discriminate H.
Qed.

(** C1, as the code has it. Starting from a new manager, over any database,
    and through any sequence of [enable], [disable], [update_token],
    [activate] and [deactivate] in which no [disable] is called on a plugin
    that is active at that moment, every state the manager goes through has
    [is_active(id)] imply [is_enabled(id)] for every plugin id. The
    implication is established by the check [activate] makes; [disable]
    makes no check of its own. *)
Theorem active_implies_enabled_unless_disabled_while_active :
  forall (plugin_dir venv_dir : string) (db : PluginsDatabase) (ops : list op),
    disables_inactive ops (new_execution_manager plugin_dir venv_dir db) = true ->
    Forall active_implies_enabled
      (states ops (new_execution_manager plugin_dir venv_dir db)).
Proof.
  intros plugin_dir venv_dir db ops Hguard.
  apply states_preserve; [apply new_manager_invariant | assumption].
Qed.

Lemma active_implies_enabled_witness :
  Forall active_implies_enabled
    (states [Enable "p1"; UpdateToken "p1" "secret"; Disable "p1";
             Enable "p1"; Activate (p1_info (ready_after 1)); Deactivate "p1"]
       fresh_manager).
Proof.
  apply (active_implies_enabled_unless_disabled_while_active
           "/plugins" "/venv" {[ "p1" := p1_row false None ]}).
  vm_compute. reflexivity.
Defined.

(** C1, as stated, fails: [disable] on an active plugin leaves it active and
    not enabled. *)
Lemma disable_while_active_breaks_invariant :
  is_active (run disable_while_active fresh_manager) "p1" = true
  /\ is_enabled (run disable_while_active fresh_manager) "p1" = false.
Proof. split; vm_compute; reflexivity. Qed.

(** ** Activating twice *)

Lemma entries_for_absent plugin_id (active : gmap string Service) :
  active !! plugin_id = None -> entries_for plugin_id active = [].
Proof.
  intros Hnone. unfold entries_for.
  destruct (filter _ _) as [|[k v] rest] eqn:Hf; [reflexivity|].
  assert (Hin : (k, v) ∈ filter (fun kv : string * Service => kv.1 = plugin_id)
                          (map_to_list active)).
  { rewrite Hf. apply list_elem_of_here. }
  apply list_elem_of_filter in Hin as [Hk Hin]. simpl in Hk. subst k.
  apply elem_of_map_to_list in Hin. congruence.
Qed.

Lemma entries_for_present plugin_id (active : gmap string Service) :
  is_Some (active !! plugin_id) ->
  length (entries_for plugin_id active) = 1%nat.
Proof.
  induction active as [|k v m Hk IH] using map_ind.
  - rewrite lookup_empty. intros [? H]. discriminate H.
  - intros Hsome. unfold entries_for.
    rewrite (map_to_list_insert m k v Hk).
    destruct (decide (k = plugin_id)) as [->|Hne].
    + rewrite filter_cons_True by reflexivity. simpl. f_equal.
      fold (entries_for plugin_id m). now rewrite entries_for_absent.
    + rewrite filter_cons_False by (simpl; congruence).
      rewrite lookup_insert_ne in Hsome by assumption. now apply IH.
Qed.

(** C9. When [activate] has succeeded on a plugin, calling it again
    succeeds and changes nothing in the manager: the active set is the
    same, and no call is added to the log of service calls, so no service
    was constructed or started. The plugin is active, and the active set
    holds exactly one entry for its id. *)
Theorem activate_twice_is_idempotent :
  forall (plugin_info : dict) (em em1 : ExecutionManager),
    activate plugin_info em = (Ok true, em1) ->
    activate plugin_info em1 = (Ok true, em1)
    /\ exists plugin_id,
         getitem_str plugin_info "id" = Ok plugin_id
         /\ is_active em1 plugin_id = true
         /\ length (entries_for plugin_id (active_plugins em1)) = 1%nat.
Proof.
  intros plugin_info em em1 Hfirst.
  assert (Hstate : exists plugin_id,
             getitem_str plugin_info "id" = Ok plugin_id
             /\ is_enabled em1 plugin_id = true
             /\ is_active em1 plugin_id = true).
  { apply activate_inv in Hfirst as [Hdb Hcases].
    destruct Hcases as [[_ Hsame]|(p & service & Hid & Hen & _ & _ & Ha)].
    - destruct (Hsame eq_refl) as [-> Hp]. exact Hp.
    - exists p. split; [assumption|]. split.
      + rewrite is_enabled_lookup, Hdb, <- is_enabled_lookup. assumption.
      + unfold is_active. rewrite Ha, lookup_insert_eq.
        apply bool_decide_eq_true. eauto. }
  destruct Hstate as (p & Hid & Hen & Hact).
  split.
  - unfold activate, bind, lift, get, ret. rewrite Hid. simpl.
    now rewrite Hen, Hact.
  - exists p. repeat split; try assumption.
    apply entries_for_present. unfold is_active in Hact.
    now apply bool_decide_eq_true in Hact.
Qed.

Lemma activate_twice_witness :
  exists em1,
    activate (p1_info (ready_after 1)) ready_manager = (Ok true, em1)
    /\ activate (p1_info (ready_after 1)) em1 = (Ok true, em1)
    /\ is_active em1 "p1" = true
    /\ length (entries_for "p1" (active_plugins em1)) = 1%nat.
Proof.
  eexists. split; [vm_compute; reflexivity|].
  destruct (activate_twice_is_idempotent (p1_info (ready_after 1))
              ready_manager _ eq_refl) as [Hsecond (p & Hid & Hact & Hone)].
  split; [exact Hsecond|].
  assert (Hp : p = "p1") by (vm_compute in Hid; congruence).
  subst p. split; [exact Hact | exact Hone].
Defined.

(** ** deactivate *)

(** [deactivate] never changes the active set, whatever it returns. *)
Lemma deactivate_keeps_active_set plugin_id em r em' :
  deactivate plugin_id em = (r, em') ->
  active_plugins em' = active_plugins em.
Proof. intros H. now apply deactivate_tables in H as (_&_&_&Ha). Qed.

Lemma deactivate_not_active plugin_id em :
  is_active em plugin_id = false ->
  deactivate plugin_id em = (Raise (ValueError "Plugin is not active."), em).
Proof.
  intros H. unfold deactivate, bind, get, raise. simpl. now rewrite H.
Qed.

(** C2, on the code: a [deactivate] that succeeds stops the service and
    leaves the plugin in the active set; when the stop raises, the
    exception reaches the caller and the plugin stays in the active set as
    well. *)
Theorem deactivate_leaves_plugin_active :
  (exists em',
     deactivate "p1" (active_manager (ready_after 1)) = (Ok true, em')
     /\ calls em' = [Stop]
     /\ is_active em' "p1" = true)
  /\ (exists em',
        deactivate "p1" (active_manager stubborn)
        = (Raise (Exception_ "cannot stop"), em')
        /\ is_active em' "p1" = true).
Proof.
  split; eexists; (split; [vm_compute; reflexivity|]);
    repeat split; vm_compute; reflexivity.
Qed.

(** ** The start timeout *)

(** Whatever the descriptor holds, a wait that [activate] adds to the log
    has the timeout 30. *)
Lemma activate_waits_30 plugin_info em r em' :
  activate plugin_info em = (r, em') ->
  exists added,
    calls em' = (calls em ++ added)%list
    /\ forall t, In (WaitForStart t) added -> t = 30.
Proof.
  unfold activate, get_plugin_data, construct, run_plugin, log, set_active.
  intros H. destruct (getitem plugin_info "cls") as [[j|o]|e] eqn:Hcls.
  all: step_through.
  all: try (exists []; rewrite app_nil_r; split; [reflexivity | intros t []]).
  all: simpl; rewrite <- ?app_assoc; simpl.
  all: eexists; (split; [reflexivity|]).
  all: simpl; intros t Hin; intuition congruence.
Qed.

(** C7, on the code: the manifest of [p1] declares a start timeout of 60 and
    its service is ready after 45, within that timeout; [activate] waits 30
    all the same, stops the service and raises, and the plugin is not
    active. *)
Theorem activate_ignores_start_timeout :
  p1_slow_info !! "start_timeout" = Some (VJson (JNum 60))
  /\ wait_for_start (ready_after 45) 60 = Ok true
  /\ exists em',
       activate p1_slow_info ready_manager
       = (Raise (Exception_ "Unable to start plugin."), em')
       /\ calls em'
          = [Construct (Some "secret") "/venv/p1"; Start; WaitForStart 30; Stop]
       /\ is_active em' "p1" = false.
Proof.
  split; [vm_compute; reflexivity|]. split; [reflexivity|].
  eexists. split; [vm_compute; reflexivity|].
  split; vm_compute; reflexivity.
Qed.

(** ** The descriptor the info filter produces *)

Section WritesOnly.
Context (keys : list string).

Lemma writes_only_ret {A} (a : A) : writes_only keys (ret a).
Proof. intros obj r obj' [= _ <-]. reflexivity. Qed.

Lemma writes_only_raise {A} e : writes_only keys (@raise dict A e).
Proof. intros obj r obj' [= _ <-]. reflexivity. Qed.

Lemma writes_only_lift {A} (x : result A) : writes_only keys (lift x).
Proof. intros obj r obj' [= _ <-]. reflexivity. Qed.

Lemma writes_only_get : writes_only keys (@get dict).
Proof. intros obj r obj' [= _ <-]. reflexivity. Qed.

Lemma writes_only_bind {A B} (m : M dict A) (f : A -> M dict B) :
  writes_only keys m -> (forall a, writes_only keys (f a)) ->
  writes_only keys (bind m f).
Proof.
  intros Hm Hf obj r obj' Hrun k Hk. unfold bind in Hrun.
  destruct (m obj) as [[a|e] obj1] eqn:Hmo.
  - rewrite (Hf a _ _ _ Hrun k Hk). exact (Hm _ _ _ Hmo k Hk).
  - injection Hrun as _ <-. exact (Hm _ _ _ Hmo k Hk).
Qed.

Lemma writes_only_setitem key v :
  In key keys -> writes_only keys (setitem key v).
Proof.
  intros Hin obj r obj' [= _ <-] k Hk.
  apply lookup_insert_ne. intros ->. exact (Hk Hin).
Qed.

Lemma writes_only_append_error msg :
  In "errors" keys -> writes_only keys (append_error msg).
Proof.
  intros Hin. unfold append_error.
  apply writes_only_bind; [apply writes_only_get|]. intros obj.
  destruct (obj !! "errors") as [[[]|]|];
    auto using writes_only_setitem, writes_only_raise.
Qed.
End WritesOnly.

(** Walks through a computation built from the steps above. *)
Ltac writes_only_steps :=
  repeat first
    [ apply writes_only_ret | apply writes_only_raise
    | apply writes_only_lift | apply writes_only_get
    | apply writes_only_append_error; simpl; tauto
    | apply writes_only_setitem; simpl; tauto
    | apply writes_only_bind; [|intros ?] ].

(** The keys [PluginInfoFilter.filter] may write. *)
Lemma info_filter_writes_only ext d :
  writes_only ["errors"; "deps"; "package_path"; "config"; "start_timeout";
               "service_cls"]
    (PluginInfoFilter_filter ext d).
Proof.
  unfold PluginInfoFilter_filter.
  apply writes_only_bind; [apply writes_only_get|]. intros obj.
  destruct (negb _); [apply writes_only_ret|].
  apply writes_only_bind; [apply writes_only_lift|]. intros install_path.
  destruct (rbind _ _) as [plugin_info|e].
  - destruct (resolve_service _ _ _) as [[module|]|e]; [| apply writes_only_ret |].
    + writes_only_steps.
    + repeat match goal with |- context [if ?b then _ else _] => destruct b end;
        writes_only_steps.
  - repeat match goal with |- context [if ?b then _ else _] => destruct b end;
      writes_only_steps.
Qed.

Lemma info_filter_writes ext d obj r obj' k :
  PluginInfoFilter_filter ext d obj = (r, obj') ->
  ~ In k ["errors"; "deps"; "package_path"; "config"; "start_timeout";
          "service_cls"] ->
  obj' !! k = obj !! k.
Proof. intros H Hk. exact (info_filter_writes_only ext d _ _ _ H k Hk). Qed.

(** When the manifest resolves, the class is stored under ["service_cls"]. *)
Lemma info_filter_stores_service_cls ext d obj install_path text plugin_info module :
  truthy_get obj "installed" = true ->
  getitem_str obj "install_path" = Ok install_path ->
  read_file d (path_join install_path "plugin.json") = Ok text ->
  json_loads ext text = Ok plugin_info ->
  resolve_service ext install_path plugin_info = Ok (Some module) ->
  exists obj',
    PluginInfoFilter_filter ext d obj = (Ok tt, obj')
    /\ obj' !! "service_cls" = Some module.
Proof.
  intros Hinst Hpath Hread Hjson Hres.
  unfold PluginInfoFilter_filter, bind, get, lift, ret.
  rewrite Hinst. cbn [negb]. rewrite Hpath. cbv beta iota.
  rewrite Hread. unfold rbind at 1. rewrite Hjson, Hres.
  assert (Hsvc : exists service, json_getitem plugin_info "service" = Ok service).
  { unfold resolve_service in Hres.
    destruct (json_getitem plugin_info "service"); [eauto | discriminate]. }
  destruct Hsvc as [service ->]. unfold setitem, modify. simpl.
  eexists. split; [reflexivity|]. apply lookup_insert_eq.
Qed.

(** C10. Take a descriptor with a string id and without the key ["cls"],
    as the registry lists them, and let the info filter work on it. The
    descriptor that comes out has no ["cls"] either, whatever the manifest
    holds and whether or not the filter raised; for a plugin that is
    enabled and not active, [activate] on it raises [KeyError("cls")] and
    leaves the manager as it was, the log of service calls included: no
    service was constructed or started. *)
Theorem activate_after_info_filter_raises_key_error :
  forall (ext : Externals) (d : disk) (obj obj' : dict) (r : result unit)
         (em : ExecutionManager) (plugin_id : string),
    obj !! "cls" = None ->
    getitem_str obj "id" = Ok plugin_id ->
    PluginInfoFilter_filter ext d obj = (r, obj') ->
    is_enabled em plugin_id = true ->
    is_active em plugin_id = false ->
    obj' !! "cls" = None
    /\ activate obj' em = (Raise (KeyError "cls"), em).
Proof.
  intros ext d obj obj' r em plugin_id Hcls Hid Hfilter Hen Hact.
  assert (Hcls' : obj' !! "cls" = None).
  { rewrite (info_filter_writes _ _ _ _ _ "cls" Hfilter); [assumption|].
    simpl. intros H. repeat destruct H as [H|H]; try discriminate H; exact H. }
  assert (Hid' : getitem_str obj' "id" = Ok plugin_id).
  { unfold getitem_str in *.
    rewrite (info_filter_writes _ _ _ _ _ "id" Hfilter); [assumption|].
    simpl. intros H. repeat destruct H as [H|H]; try discriminate H; exact H. }
  split; [assumption|].
  unfold activate, bind, lift, get, get_plugin_data. rewrite Hid'. simpl.
  rewrite Hen, Hact. simpl.
  unfold is_enabled in Hen. destruct (query (database em) plugin_id);
    [|discriminate].
  unfold getitem. now rewrite Hcls'.
Qed.

Lemma activate_after_info_filter_witness :
  let obj' := (PluginInfoFilter_filter all_good p1_disk p1_with_state).2 in
  obj' !! "cls" = None
  /\ activate obj' ready_manager = (Raise (KeyError "cls"), ready_manager).
Proof.
  apply (activate_after_info_filter_raises_key_error
           all_good p1_disk p1_with_state
           (PluginInfoFilter_filter all_good p1_disk p1_with_state).2
           (PluginInfoFilter_filter all_good p1_disk p1_with_state).1
           ready_manager "p1").
  - vm_compute; reflexivity.
  - vm_compute; reflexivity.
  - apply surjective_pairing.
  - vm_compute; reflexivity.
  - vm_compute; reflexivity.
Defined.

(** On that descriptor the filter returns, with the class of the manifest
    under ["service_cls"]. *)
Example info_filter_on_p1 :
  (PluginInfoFilter_filter all_good p1_disk p1_with_state).1 = Ok tt
  /\ (PluginInfoFilter_filter all_good p1_disk p1_with_state).2 !! "service_cls"
     = Some (class_of (ready_after 1)).
Proof. split; vm_compute; reflexivity. Qed.

(** The launcher reads ["cls"] from what the info filter returns for
    [dict(installed=True, install_path=plugin_dir)], and never finds it. *)
Lemma launcher_finds_no_service_class ext d plugin_dir :
  is_ok (launch_service_class ext d plugin_dir) = false.
Proof.
  unfold launch_service_class.
  destruct (PluginInfoFilter_filter _ _ _) as [[[]|e] plugin_info] eqn:Hfilter;
    [|reflexivity].
  unfold getitem.
  rewrite (info_filter_writes _ _ _ _ _ "cls" Hfilter).
  - rewrite !lookup_insert_ne by discriminate. now rewrite lookup_empty.
  - simpl. intros H. repeat destruct H as [H|H]; try discriminate H; exact H.
Qed.

(** ** The install manager *)

(** [is_installed] looks at the source directory alone. *)
Lemma is_installed_is_source_dir self d plugin_id :
  is_installed self d plugin_id
  = isdir d (path_join (im_plugin_dir self) plugin_id).
Proof. unfold is_installed. apply andb_diag. Qed.

(** C5, on the code: with the source directory of a plugin on disk and no
    environment directory for it, [is_installed] answers true. *)
Theorem is_installed_without_environment :
  isdir source_only_disk (path_join "/plugins" repo_id) = true
  /\ isdir source_only_disk (path_join "/venv" repo_id) = false
  /\ venv_exists sample_install_manager source_only_disk repo_id = false
  /\ is_installed sample_install_manager source_only_disk repo_id = true.
Proof. repeat split; vm_compute; reflexivity. Qed.

(** A path is gone once [rmtree] has removed it. *)
Lemma rmtree_removes p d d' :
  rmtree p d = (Ok tt, d') -> d' !! p = None.
Proof.
  unfold rmtree. destruct (d !! p) as [[|content]|]; try discriminate.
  intros [= <-]. apply map_lookup_filter_None. right. intros x _. simpl.
  unfold within. rewrite String.eqb_refl. discriminate.
Qed.

(** [rmtree] and [InstalledPlugin.clean] only remove. *)
Lemma rmtree_only_removes p d r d' q :
  rmtree p d = (r, d') -> d !! q = None -> d' !! q = None.
Proof.
  unfold rmtree. destruct (d !! p) as [[|content]|]; intros [= _ <-] Hq;
    try assumption.
  apply map_lookup_filter_None. now left.
Qed.

Lemma installed_clean_result self d r d' :
  installed_clean self d = (r, d') -> isdir d' (src self) = false.
Proof.
  unfold installed_clean, bind, get, ret. simpl.
  destruct (isdir d (src self)) eqn:Hdir.
  - intros H. unfold isdir.
    destruct r as [[]|e].
    + now rewrite (rmtree_removes _ _ _ H).
    + unfold rmtree in H. unfold isdir in Hdir.
      destruct (d !! src self) as [[|content]|]; discriminate.
  - intros [= _ <-]. assumption.
Qed.

(** After an [uninstall] that returned, the next one raises: the
    environment directory is gone, and [VirtualEnvManager.clean] removes it
    without looking. *)
Lemma uninstall_again_raises self plugin_id d d' :
  uninstall self plugin_id d = (Ok tt, d') ->
  exists d'',
    uninstall self plugin_id d'
    = (Raise (FileNotFoundError (path_join (im_venv_dir self) plugin_id)), d'').
Proof.
  unfold uninstall, venv_clean, bind. simpl.
  destruct (installed_clean _ d) as [[[]|e] d1] eqn:Hclean; [|discriminate].
  intros Hrm. apply rmtree_removes in Hrm as Hgone.
  destruct (installed_clean _ d') as [[[]|e] d2] eqn:Hclean2.
  - exists d2. unfold rmtree.
    assert (Hd2 : d2 !! path_join (im_venv_dir self) plugin_id = None).
    { unfold installed_clean, bind, get, ret in Hclean2. simpl in Hclean2.
      destruct (isdir d' _).
      - eapply rmtree_only_removes; eassumption.
      - now injection Hclean2 as <-. }
    now rewrite Hd2.
  - exfalso.
    apply installed_clean_result in Hclean. simpl in Hclean.
    assert (Hdir : isdir d' (path_join (im_plugin_dir self) plugin_id) = false).
    { unfold isdir in *. unfold rmtree in Hrm.
      destruct (d1 !! path_join (im_venv_dir self) plugin_id) as [[|content]|];
        try discriminate.
      injection Hrm as <-.
      clear Hgone.
      destruct (filter _ d1 !! path_join (im_plugin_dir self) plugin_id)
        as [[|c]|] eqn:Hf; try reflexivity.
      apply map_lookup_filter_Some in Hf as [Hf _]. now rewrite Hf in Hclean. }
    unfold installed_clean, bind, get, ret in Hclean2. simpl in Hclean2.
    rewrite Hdir in Hclean2. discriminate.
Qed.

(** C4, on the code: on a disk that holds the source and the environment
    of a plugin, [uninstall] removes both and a second [uninstall] raises
    [FileNotFoundError]; so does a first [uninstall] when the environment
    directory is absent, after it has removed the source. *)
Theorem uninstall_raises_without_environment :
  uninstall sample_install_manager repo_id installed_disk = (Ok tt, empty_roots)
  /\ uninstall sample_install_manager repo_id empty_roots
     = (Raise (FileNotFoundError (path_join "/venv" repo_id)), empty_roots)
  /\ uninstall sample_install_manager repo_id source_only_disk
     = (Raise (FileNotFoundError (path_join "/venv" repo_id)), empty_roots).
Proof. repeat split; vm_compute; reflexivity. Qed.

(** C3, on the code: the source cannot be fetched and no environment
    directory exists yet; the rollback raises [FileNotFoundError], which
    leaves [install] instead of the [None] it returns for a failure. *)
Theorem install_rollback_raises_after_fetch_failure :
  install unreachable_source sample_install_manager repo_listed empty_roots
  = (Raise (FileNotFoundError (path_join "/venv" repo_id)), empty_roots).
Proof. vm_compute. reflexivity. Qed.

(** When the requirements cannot be installed, the environment directory
    exists by then and the rollback goes through: [install] returns [None]
    and neither directory is left. *)
Example install_rolls_back_failed_requirements :
  install failing_requirements sample_install_manager repo_listed empty_roots
  = (Ok None, empty_roots).
Proof. vm_compute. reflexivity. Qed.

(** With every collaborator succeeding, [install] returns the plugin and
    leaves its source and its environment on disk. *)
Example install_succeeds :
  let out := install all_good sample_install_manager repo_listed empty_roots in
  out.1 = Ok (Some {| src := path_join "/plugins" repo_id |})
  /\ is_installed sample_install_manager out.2 repo_id = true
  /\ venv_exists sample_install_manager out.2 repo_id = true.
Proof. repeat split; vm_compute; reflexivity. Qed.

(** ** The state projection *)

(** C6, on the code: [extract_plugin_info] builds [PluginStateFilter] with
    one argument where its [__init__] requires two, so it raises
    [TypeError] for every descriptor, before any filter has run. *)
Theorem extract_plugin_info_raises_type_error :
  forall (ext : Externals) (self : PluginManager) (d : disk) (obj : dict),
    extract_plugin_info ext self d obj
    = (Raise (TypeError
                "__init__() missing 1 required positional argument: 'execution_manager'"),
       obj).
Proof. reflexivity. Qed.

(** Built with both managers, the state filter still raises: it asks the
    install manager for [is_enabled], which only the execution manager
    has. The descriptor has [installed] and [active] set by then. *)
Lemma state_filter_raises_attribute_error im em d obj plugin_id :
  getitem_str obj "id" = Ok plugin_id ->
  PluginStateFilter_filter
    {| sf_install_manager := AnInstallManager im;
       sf_execution_manager := AnExecutionManager em |} d obj
  = (Raise (AttributeError
              "'PluginInstallManager' object has no attribute 'is_enabled'"),
     <["active" := VBool (is_active em plugin_id)]>
       (<["installed" := VBool (is_installed im d plugin_id)]> obj)).
Proof.
  intros Hid. unfold PluginStateFilter_filter, bind, lift, get, setitem, modify.
  simpl. now rewrite Hid.
Qed.

(** A missing manifest is not reported: the info filter returns the
    descriptor as it was, without an ["errors"] entry of its own. *)
Lemma info_filter_silent_on_missing_manifest ext d obj install_path name :
  truthy_get obj "installed" = true ->
  getitem_str obj "install_path" = Ok install_path ->
  d !! path_join install_path "plugin.json" = None ->
  obj !! "name" = Some name ->
  PluginInfoFilter_filter ext d obj = (Ok tt, obj).
Proof.
  intros Hinst Hpath Hnone Hname.
  unfold PluginInfoFilter_filter, bind, get, lift, ret.
  rewrite Hinst. cbn [negb]. rewrite Hpath. cbv beta iota.
  unfold read_file. rewrite Hnone. unfold rbind, getitem. cbn [isinstance].
  now rewrite Hname.
Qed.

(** * Further properties of the code *)

(** ** The enabled flag and the token *)

Lemma enable_known plugin_id em row :
  database em !! plugin_id = Some row ->
  exists em',
    enable plugin_id em = (Ok true, em')
    /\ database em' !! plugin_id
       = Some {| enabled := true; app_secret_token := app_secret_token row |}
    /\ (forall other, other <> plugin_id ->
          database em' !! other = database em !! other)
    /\ active_plugins em' = active_plugins em
    /\ calls em' = calls em.
Proof.
  intros Hrow. unfold enable, query. rewrite Hrow.
  destruct row as [[] token]; simpl.
  - exists em. rewrite Hrow. auto.
  - eexists. split; [reflexivity|]. simpl. unfold save.
    rewrite lookup_insert_eq. split; [reflexivity|].
    split; [|auto]. intros other Hne. now rewrite lookup_insert_ne.
Qed.

Lemma disable_known plugin_id em row :
  database em !! plugin_id = Some row ->
  exists em',
    disable plugin_id em = (Ok true, em')
    /\ database em' !! plugin_id
       = Some {| enabled := false; app_secret_token := app_secret_token row |}
    /\ (forall other, other <> plugin_id ->
          database em' !! other = database em !! other)
    /\ active_plugins em' = active_plugins em
    /\ calls em' = calls em.
Proof.
  intros Hrow. unfold disable, query. rewrite Hrow.
  destruct row as [[] token]; simpl.
  - eexists. split; [reflexivity|]. simpl. unfold save.
    rewrite lookup_insert_eq. split; [reflexivity|].
    split; [|auto]. intros other Hne. now rewrite lookup_insert_ne.
  - exists em. rewrite Hrow. auto.
Qed.

Lemma update_token_known plugin_id token em row :
  blank token = false ->
  database em !! plugin_id = Some row ->
  exists em',
    update_token plugin_id token em = (Ok true, em')
    /\ database em' !! plugin_id
       = Some {| enabled := enabled row; app_secret_token := Some token |}
    /\ (forall other, other <> plugin_id ->
          database em' !! other = database em !! other)
    /\ active_plugins em' = active_plugins em
    /\ calls em' = calls em.
Proof.
  intros Hb Hrow. unfold update_token.
  rewrite strip_truthy, Hb. simpl. unfold query. rewrite Hrow.
  eexists. split; [reflexivity|]. simpl. unfold save.
  rewrite lookup_insert_eq. split; [reflexivity|].
  split; [|auto]. intros other Hne. now rewrite lookup_insert_ne.
Qed.

(** X1. For a plugin with a record: after [enable] and an [update_token]
    with a token that is not blank, [is_enabled] is true; a [disable] after
    that makes it false again and leaves the token in the record. *)
Theorem enable_and_token_make_enabled :
  forall (em : ExecutionManager) (plugin_id token : string) (row : PluginData),
    database em !! plugin_id = Some row ->
    blank token = false ->
    let em2 := run [Enable plugin_id; UpdateToken plugin_id token] em in
    let em3 := exec (Disable plugin_id) em2 in
    is_enabled em2 plugin_id = true
    /\ is_enabled em3 plugin_id = false
    /\ database em3 !! plugin_id
       = Some {| enabled := false; app_secret_token := Some token |}.
Proof.
  intros em plugin_id token row Hrow Hb. simpl. unfold exec. simpl.
  destruct (enable_known _ _ _ Hrow) as (em1 & -> & Hrow1 & _). simpl.
  destruct (update_token_known _ _ _ _ Hb Hrow1) as (em2 & -> & Hrow2 & _).
  simpl.
  destruct (disable_known _ _ _ Hrow2) as (em3 & -> & Hrow3 & _). simpl.
  rewrite !is_enabled_lookup, Hrow2, Hrow3. simpl.
  split; [now apply not_blank_length | auto].
Qed.

Lemma enable_and_token_make_enabled_witness :
  let em2 := run [Enable "p1"; UpdateToken "p1" "secret"] fresh_manager in
  let em3 := exec (Disable "p1") em2 in
  is_enabled em2 "p1" = true
  /\ is_enabled em3 "p1" = false
  /\ database em3 !! "p1"
     = Some {| enabled := false; app_secret_token := Some "secret" |}.
Proof.
  apply (enable_and_token_make_enabled fresh_manager "p1" "secret"
           (p1_row false None)); reflexivity.
Defined.

(** X2. Enabling is not enough without a token: for a plugin whose record
    holds no token, or the empty one, [is_enabled] is false after
    [enable]. *)
Theorem enable_without_token_is_not_enabled :
  forall (em : ExecutionManager) (plugin_id : string) (row : PluginData),
    database em !! plugin_id = Some row ->
    app_secret_token row = None \/ app_secret_token row = Some EmptyString ->
    (step (Enable plugin_id) em).1 = Ok true
    /\ is_enabled (exec (Enable plugin_id) em) plugin_id = false.
Proof.
  intros em plugin_id row Hrow Htoken. unfold exec. simpl.
  destruct (enable_known _ _ _ Hrow) as (em1 & -> & Hrow1 & _). simpl.
  split; [reflexivity|]. rewrite is_enabled_lookup, Hrow1. simpl.
  destruct Htoken as [-> | ->]; reflexivity.
Qed.

Lemma enable_without_token_witness :
  (step (Enable "p1") fresh_manager).1 = Ok true
  /\ is_enabled (exec (Enable "p1") fresh_manager) "p1" = false.
Proof.
  apply (enable_without_token_is_not_enabled fresh_manager "p1"
           (p1_row false None)); [reflexivity | left; reflexivity].
Defined.

(** X3. [enable] and [disable] are idempotent: a second call in a row
    changes nothing in the manager; and for an id without a record both
    return [False] and change nothing. *)
Theorem enable_disable_idempotent :
  forall (em : ExecutionManager) (plugin_id : string),
    exec (Enable plugin_id) (exec (Enable plugin_id) em)
    = exec (Enable plugin_id) em
    /\ exec (Disable plugin_id) (exec (Disable plugin_id) em)
       = exec (Disable plugin_id) em
    /\ (database em !! plugin_id = None ->
        enable plugin_id em = (Ok false, em)
        /\ disable plugin_id em = (Ok false, em)).
Proof.
  intros em plugin_id. unfold exec. simpl.
  destruct (database em !! plugin_id) as [row|] eqn:Hrow.
  - destruct (enable_known _ _ _ Hrow) as (em1 & He1 & Hrow1 & _).
    destruct (disable_known _ _ _ Hrow) as (em2 & Hd1 & Hrow2 & _).
    rewrite He1, Hd1. simpl.
    split; [|split; [|discriminate]].
    + unfold enable, query. now rewrite Hrow1.
    + unfold disable, query. now rewrite Hrow2.
  - unfold enable, disable, query. rewrite Hrow. simpl.
    rewrite Hrow. auto.
Qed.

Lemma enable_disable_idempotent_witness :
  exec (Enable "p1") (exec (Enable "p1") fresh_manager)
  = exec (Enable "p1") fresh_manager
  /\ enable "p2" fresh_manager = (Ok false, fresh_manager)
  /\ disable "p2" fresh_manager = (Ok false, fresh_manager).
Proof.
  destruct (enable_disable_idempotent fresh_manager "p1") as [Henable _].
  destruct (enable_disable_idempotent fresh_manager "p2") as (_ & _ & Hunknown).
  split; [exact Henable|]. apply Hunknown. reflexivity.
Defined.

(** X4. [enable], [disable] and [update_token] on one plugin leave the
    record of every other plugin, the active set and the log of service
    calls as they were. *)
Theorem flag_and_token_changes_are_local :
  forall (em : ExecutionManager) (plugin_id other token : string) (o : op),
    o = Enable plugin_id \/ o = Disable plugin_id
    \/ o = UpdateToken plugin_id token ->
    other <> plugin_id ->
    database (exec o em) !! other = database em !! other
    /\ is_enabled (exec o em) other = is_enabled em other
    /\ active_plugins (exec o em) = active_plugins em
    /\ calls (exec o em) = calls em.
Proof.
  intros em plugin_id other token o Ho Hne.
  assert (H : database (exec o em) !! other = database em !! other
              /\ active_plugins (exec o em) = active_plugins em
              /\ calls (exec o em) = calls em).
  { unfold exec.
    destruct Ho as [-> | [-> | ->]]; simpl.
    - unfold enable, query, set_database, bind, modify, ret, save.
      destruct (database em !! plugin_id) as [[[] t]|]; simpl; auto.
      now rewrite lookup_insert_ne.
    - unfold disable, query, set_database, bind, modify, ret, save.
      destruct (database em !! plugin_id) as [[[] t]|]; simpl; auto.
      now rewrite lookup_insert_ne.
    - unfold update_token, query, set_database, bind, modify, ret, raise, save.
      destruct (negb _); simpl; auto.
      destruct (database em !! plugin_id) as [row|]; simpl; auto.
      now rewrite lookup_insert_ne. }
  destruct H as (Hdb & Ha & Hc). repeat split; try assumption.
  now rewrite !is_enabled_lookup, Hdb.
Qed.

Lemma flag_and_token_changes_witness :
  database (exec (Disable "p1") ready_manager) !! "p2"
  = database ready_manager !! "p2"
  /\ is_enabled (exec (Disable "p1") ready_manager) "p2"
     = is_enabled ready_manager "p2"
  /\ active_plugins (exec (Disable "p1") ready_manager)
     = active_plugins ready_manager
  /\ calls (exec (Disable "p1") ready_manager) = calls ready_manager.
Proof.
  apply (flag_and_token_changes_are_local ready_manager "p1" "p2" "" (Disable "p1"));
    [right; left; reflexivity | discriminate].
Defined.

(** ** Activation *)

Lemma log_add_calls c em : log c em = (Ok tt, add_calls em [c]).
Proof. reflexivity. Qed.

Lemma add_calls_app em cs1 cs2 :
  add_calls (add_calls em cs1) cs2 = add_calls em (cs1 ++ cs2).
Proof. unfold add_calls. simpl. now rewrite <- app_assoc. Qed.

(** [activate] up to the point where the service has been constructed. *)
Lemma activate_constructed plugin_info em plugin_id row o service :
  getitem_str plugin_info "id" = Ok plugin_id ->
  database em !! plugin_id = Some row ->
  is_enabled em plugin_id = true ->
  is_active em plugin_id = false ->
  plugin_info !! "cls" = Some (VObj o) ->
  py_call o (app_secret_token row) (JObj [])
    (path_join (em_venv_dir em) plugin_id) = Ok service ->
  activate plugin_info em
  = (started <- run_plugin service 30 ;;
     if negb started then raise (Exception_ "Unable to start plugin.")
     else
       lift (getitem plugin_info "name") ;;;
       set_active plugin_id service ;;;
       ret true)
      (add_calls em [Construct (app_secret_token row)
                       (path_join (em_venv_dir em) plugin_id)]).
Proof.
  intros Hid Hrow Hen Hact Hcls Hcall.
  unfold activate, get_plugin_data, construct, getitem.
  unfold bind at 1. unfold lift at 1. rewrite Hid.
  unfold bind at 1. unfold get at 1. rewrite Hen, Hact. cbn [negb].
  unfold bind at 1. unfold query. rewrite Hrow.
  unfold bind at 1. unfold lift at 1. rewrite Hcls.
  unfold bind at 1. unfold bind at 1. rewrite log_add_calls.
  unfold lift at 1. cbn [em_venv_dir add_calls]. rewrite Hcall.
  reflexivity.
Qed.

(** X5. A plugin that is not enabled is not activated: [activate] raises
    [ValueError("Plugin is not enabled.")] and leaves the manager as it
    was, whether the plugin has no record, no token, a cleared flag, or is
    already in the active set. *)
Theorem activate_refused_when_not_enabled :
  forall (plugin_info : dict) (em : ExecutionManager) (plugin_id : string),
    getitem_str plugin_info "id" = Ok plugin_id ->
    is_enabled em plugin_id = false ->
    activate plugin_info em
    = (Raise (ValueError "Plugin is not enabled."), em).
Proof.
  intros plugin_info em plugin_id Hid Hen.
  unfold activate, bind, lift, get, raise. rewrite Hid. simpl.
  now rewrite Hen.
Qed.

Lemma activate_refused_witness :
  activate (p1_info (ready_after 1)) fresh_manager
  = (Raise (ValueError "Plugin is not enabled."), fresh_manager).
Proof.
  apply (activate_refused_when_not_enabled _ _ "p1");
    vm_compute; reflexivity.
Defined.

(** X6. An [activate] that does not return [True] leaves the active set as
    it was, and no [activate] writes to the database: a failed start never
    leaves an entry behind. *)
Theorem failed_activate_leaves_no_entry :
  forall (plugin_info : dict) (em em' : ExecutionManager) (r : result bool),
    activate plugin_info em = (r, em') ->
    database em' = database em
    /\ (r <> Ok true -> active_plugins em' = active_plugins em).
Proof.
  intros plugin_info em em' r Hrun.
  apply activate_inv in Hrun as [Hdb Hcases]. split; [assumption|].
  intros Hr. destruct Hcases as [[Ha _]|(p & s & _ & _ & _ & Hok & _)];
    [assumption | contradiction].
Qed.

Lemma failed_activate_witness :
  database (activate p1_slow_info ready_manager).2 = database ready_manager
  /\ ((activate p1_slow_info ready_manager).1 <> Ok true ->
      active_plugins (activate p1_slow_info ready_manager).2
      = active_plugins ready_manager).
Proof.
  apply (failed_activate_leaves_no_entry p1_slow_info ready_manager).
  apply surjective_pairing.
Defined.

(** X7. For an enabled plugin that is not active: when the service starts
    and is not ready within the wait of 30, [activate] stops it and raises
    [Exception("Unable to start plugin.")]; the service was constructed
    with the persisted token and the environment directory of the plugin,
    and the plugin is not recorded as active. *)
Theorem activate_stops_service_on_timeout :
  forall (plugin_info : dict) (em : ExecutionManager) (plugin_id : string)
         (row : PluginData) (o : pyobject) (service : Service),
    getitem_str plugin_info "id" = Ok plugin_id ->
    database em !! plugin_id = Some row ->
    is_enabled em plugin_id = true ->
    is_active em plugin_id = false ->
    plugin_info !! "cls" = Some (VObj o) ->
    py_call o (app_secret_token row) (JObj [])
      (path_join (em_venv_dir em) plugin_id) = Ok service ->
    service_start service = Ok tt ->
    wait_for_start service 30 = Ok false ->
    service_stop service = Ok tt ->
    activate plugin_info em
    = (Raise (Exception_ "Unable to start plugin."),
       add_calls em [Construct (app_secret_token row)
                       (path_join (em_venv_dir em) plugin_id);
                     Start; WaitForStart 30; Stop]).
Proof.
  intros plugin_info em plugin_id row o service Hid Hrow Hen Hact Hcls Hcall
    Hstart Hwait Hstop.
  rewrite (activate_constructed _ _ _ _ _ _ Hid Hrow Hen Hact Hcls Hcall).
  unfold run_plugin, bind, lift, ret, raise, log, modify, add_calls. simpl.
  rewrite Hstart, Hwait. simpl. rewrite Hstop, <- !app_assoc. reflexivity.
Qed.

Lemma activate_stops_service_witness :
  activate p1_slow_info ready_manager
  = (Raise (Exception_ "Unable to start plugin."),
     add_calls ready_manager
       [Construct (Some "secret") (path_join "/venv" "p1");
        Start; WaitForStart 30; Stop]).
Proof.
  apply (activate_stops_service_on_timeout p1_slow_info ready_manager "p1"
           (p1_row true (Some "secret"))
           {| py_call := fun _ _ _ => Ok (ready_after 45) |} (ready_after 45));
    vm_compute; reflexivity.
Defined.

(** X8. When [service_start] raises, [activate] lets that exception
    through as it is and does not call [service_stop]: the log ends with
    the start. *)
Theorem activate_start_error_is_not_stopped :
  forall (plugin_info : dict) (em : ExecutionManager) (plugin_id : string)
         (row : PluginData) (o : pyobject) (service : Service) (e : exn),
    getitem_str plugin_info "id" = Ok plugin_id ->
    database em !! plugin_id = Some row ->
    is_enabled em plugin_id = true ->
    is_active em plugin_id = false ->
    plugin_info !! "cls" = Some (VObj o) ->
    py_call o (app_secret_token row) (JObj [])
      (path_join (em_venv_dir em) plugin_id) = Ok service ->
    service_start service = Raise e ->
    activate plugin_info em
    = (Raise e,
       add_calls em [Construct (app_secret_token row)
                       (path_join (em_venv_dir em) plugin_id);
                     Start]).
Proof.
  intros plugin_info em plugin_id row o service e Hid Hrow Hen Hact Hcls Hcall
    Hstart.
  rewrite (activate_constructed _ _ _ _ _ _ Hid Hrow Hen Hact Hcls Hcall).
  unfold run_plugin, bind, lift, log, modify, add_calls. simpl.
  rewrite Hstart, <- !app_assoc. reflexivity.
Qed.

(** X9. For an enabled plugin that is not active and whose descriptor has a
    name: when the service starts and is ready within the wait of 30,
    [activate] returns [True] and records the service under the id of the
    plugin; the service was started once, never stopped. *)
Theorem activate_records_started_service :
  forall (plugin_info : dict) (em : ExecutionManager) (plugin_id : string)
         (row : PluginData) (o : pyobject) (service : Service) (name : value),
    getitem_str plugin_info "id" = Ok plugin_id ->
    database em !! plugin_id = Some row ->
    is_enabled em plugin_id = true ->
    is_active em plugin_id = false ->
    plugin_info !! "cls" = Some (VObj o) ->
    py_call o (app_secret_token row) (JObj [])
      (path_join (em_venv_dir em) plugin_id) = Ok service ->
    service_start service = Ok tt ->
    wait_for_start service 30 = Ok true ->
    plugin_info !! "name" = Some name ->
    activate plugin_info em
    = (Ok true,
       record_active
         (add_calls em [Construct (app_secret_token row)
                          (path_join (em_venv_dir em) plugin_id);
                        Start; WaitForStart 30])
         plugin_id service).
Proof.
  intros plugin_info em plugin_id row o service name Hid Hrow Hen Hact Hcls
    Hcall Hstart Hwait Hname.
  rewrite (activate_constructed _ _ _ _ _ _ Hid Hrow Hen Hact Hcls Hcall).
  unfold run_plugin, bind, lift, ret, getitem, log, modify, add_calls,
    record_active, set_active.
  simpl. rewrite Hstart, Hwait. simpl. rewrite Hname, <- !app_assoc.
  reflexivity.
Qed.

(** X10. When the descriptor has no ["name"], a service that started and
    is ready is left running and unrecorded: [activate] raises
    [KeyError("name")] after the wait, without stopping the service and
    without adding the plugin to the active set. *)
Theorem activate_without_name_leaks_service :
  forall (plugin_info : dict) (em : ExecutionManager) (plugin_id : string)
         (row : PluginData) (o : pyobject) (service : Service),
    getitem_str plugin_info "id" = Ok plugin_id ->
    database em !! plugin_id = Some row ->
    is_enabled em plugin_id = true ->
    is_active em plugin_id = false ->
    plugin_info !! "cls" = Some (VObj o) ->
    py_call o (app_secret_token row) (JObj [])
      (path_join (em_venv_dir em) plugin_id) = Ok service ->
    service_start service = Ok tt ->
    wait_for_start service 30 = Ok true ->
    plugin_info !! "name" = None ->
    activate plugin_info em
    = (Raise (KeyError "name"),
       add_calls em [Construct (app_secret_token row)
                       (path_join (em_venv_dir em) plugin_id);
                     Start; WaitForStart 30]).
Proof.
  intros plugin_info em plugin_id row o service Hid Hrow Hen Hact Hcls
    Hcall Hstart Hwait Hname.
  rewrite (activate_constructed _ _ _ _ _ _ Hid Hrow Hen Hact Hcls Hcall).
  unfold run_plugin, bind, lift, ret, getitem, log, modify, add_calls,
    record_active, set_active.
  simpl. rewrite Hstart, Hwait. simpl. rewrite Hname, <- !app_assoc.
  reflexivity.
Qed.

Lemma activate_start_error_witness :
  activate (p1_info crashing) ready_manager
  = (Raise (Exception_ "cannot start"),
     add_calls ready_manager
       [Construct (Some "secret") (path_join "/venv" "p1"); Start]).
Proof.
  apply (activate_start_error_is_not_stopped (p1_info crashing) ready_manager
           "p1" (p1_row true (Some "secret"))
           {| py_call := fun _ _ _ => Ok crashing |} crashing);
    vm_compute; reflexivity.
Defined.

Lemma activate_records_witness :
  activate (p1_info (ready_after 1)) ready_manager
  = (Ok true,
     record_active
       (add_calls ready_manager
          [Construct (Some "secret") (path_join "/venv" "p1");
           Start; WaitForStart 30])
       "p1" (ready_after 1)).
Proof.
  apply (activate_records_started_service (p1_info (ready_after 1))
           ready_manager "p1" (p1_row true (Some "secret"))
           {| py_call := fun _ _ _ => Ok (ready_after 1) |} (ready_after 1)
           (VStr "demo"));
    vm_compute; reflexivity.
Defined.

Lemma activate_without_name_witness :
  activate (p1_nameless (ready_after 1)) ready_manager
  = (Raise (KeyError "name"),
     add_calls ready_manager
       [Construct (Some "secret") (path_join "/venv" "p1");
        Start; WaitForStart 30]).
Proof.
  apply (activate_without_name_leaks_service (p1_nameless (ready_after 1))
           ready_manager "p1" (p1_row true (Some "secret"))
           {| py_call := fun _ _ _ => Ok (ready_after 1) |} (ready_after 1));
    vm_compute; reflexivity.
Defined.

(** ** Installing and removing *)

Lemma rmtree_outside p d r d' q :
  rmtree p d = (r, d') -> within p q = false -> d' !! q = d !! q.
Proof.
  unfold rmtree. destruct (d !! p) as [[|content]|]; intros [= _ <-] Hq;
    try reflexivity.
  destruct (d !! q) as [x|] eqn:Hdq.
  - apply map_lookup_filter_Some. split; [assumption | exact Hq].
  - apply map_lookup_filter_None. now left.
Qed.


Lemma installed_clean_returns self d :
  exists d', installed_clean self d = (Ok tt, d').
Proof.
  unfold installed_clean, bind, get, ret, isdir, rmtree. simpl.
  destruct (d !! src self) as [[|content]|] eqn:Hsrc; simpl;
    rewrite ?Hsrc; eexists; reflexivity.
Qed.


Lemma installed_clean_only_removes self d r d' q :
  installed_clean self d = (r, d') -> d !! q = None -> d' !! q = None.
Proof.
  unfold installed_clean, bind, get, ret. simpl.
  destruct (isdir d (src self)).
  - apply rmtree_only_removes.
  - now intros [= _ <-].
Qed.

Lemma isdir_only_removed d d' p :
  (d !! p = None -> d' !! p = None) ->
  (forall x, d' !! p = Some x -> d !! p = Some x) ->
  isdir d p = false -> isdir d' p = false.
Proof.
  unfold isdir. intros Hnone Hsome.
  destruct (d' !! p) as [x|] eqn:Hd'; [|reflexivity].
  now rewrite (Hsome x eq_refl).
Qed.

Lemma rmtree_keeps_values p d r d' q x :
  rmtree p d = (r, d') -> d' !! q = Some x -> d !! q = Some x.
Proof.
  unfold rmtree. destruct (d !! p) as [[|content]|]; intros [= _ <-] Hq;
    try assumption.
  now apply map_lookup_filter_Some in Hq as [Hq _].
Qed.

(** What holds after an [uninstall] that returned. *)
Lemma uninstall_returned self plugin_id d d' :
  uninstall self plugin_id d = (Ok tt, d') ->
  isdir d' (path_join (im_plugin_dir self) plugin_id) = false
  /\ d' !! path_join (im_venv_dir self) plugin_id = None.
Proof.
  unfold uninstall, venv_clean, bind. simpl.
  destruct (installed_clean _ d) as [[[]|e] d1] eqn:Hclean; [|discriminate].
  intros Hrm. split; [|now apply rmtree_removes in Hrm].
  apply installed_clean_result in Hclean. simpl in Hclean.
  eapply isdir_only_removed; [| |exact Hclean].
  - eapply rmtree_only_removes; eassumption.
  - intros x. eapply rmtree_keeps_values; eassumption.
Qed.

Lemma isinstance_exception e : isinstance e CException = true.
Proof. now destruct e. Qed.

(** X11. When [install] returns [None], the rollback went through:
    neither the source directory nor the environment directory of the
    plugin is on disk, and [is_installed] is false. *)
Theorem install_failure_leaves_nothing :
  forall (ext : Externals) (self : PluginInstallManager) (plugin_info : dict)
         (d d' : disk),
    install ext self plugin_info d = (Ok None, d') ->
    exists plugin_id,
      getitem_str plugin_info "id" = Ok plugin_id
      /\ is_installed self d' plugin_id = false
      /\ venv_exists self d' plugin_id = false
      /\ path_exists d' (path_join (im_venv_dir self) plugin_id) = false.
Proof.
  intros ext self plugin_info d d'. unfold install, bind, lift.
  destruct (getitem_str plugin_info "url") as [url|e]; [|discriminate].
  destruct (getitem_str plugin_info "id") as [plugin_id|e]; [|discriminate].
  destruct (install_body _ _ _ _ d) as [[plugin|e] d1]; [discriminate|].
  rewrite isinstance_exception.
  destruct (uninstall self plugin_id d1) as [[[]|e'] d2] eqn:Hun;
    [|discriminate].
  unfold ret. intros [= <-]. exists plugin_id. split; [reflexivity|].
  apply uninstall_returned in Hun as [Hsrc Hvenv].
  rewrite is_installed_is_source_dir.
  unfold venv_exists, isdir, path_exists in *. now rewrite Hvenv.
Qed.

Lemma install_failure_witness :
  exists plugin_id,
    getitem_str repo_listed "id" = Ok plugin_id
    /\ is_installed sample_install_manager empty_roots plugin_id = false
    /\ venv_exists sample_install_manager empty_roots plugin_id = false
    /\ path_exists empty_roots
         (path_join (im_venv_dir sample_install_manager) plugin_id) = false.
Proof.
  apply (install_failure_leaves_nothing failing_requirements
           sample_install_manager repo_listed empty_roots empty_roots).
  vm_compute. reflexivity.
Defined.



(** X13. After an [uninstall] that returned, the plugin is gone:
    [is_installed] and [venv_exists] are false, and nothing is left at the
    path of the environment. *)
Theorem uninstall_removes_plugin :
  forall (self : PluginInstallManager) (plugin_id : string) (d d' : disk),
    uninstall self plugin_id d = (Ok tt, d') ->
    is_installed self d' plugin_id = false
    /\ venv_exists self d' plugin_id = false
    /\ path_exists d' (path_join (im_venv_dir self) plugin_id) = false.
Proof.
  intros self plugin_id d d' Hun.
  apply uninstall_returned in Hun as [Hsrc Hvenv].
  rewrite is_installed_is_source_dir.
  unfold venv_exists, isdir, path_exists in *. now rewrite Hvenv.
Qed.

Lemma uninstall_removes_plugin_witness :
  is_installed sample_install_manager empty_roots repo_id = false
  /\ venv_exists sample_install_manager empty_roots repo_id = false
  /\ path_exists empty_roots
       (path_join (im_venv_dir sample_install_manager) repo_id) = false.
Proof.
  apply (uninstall_removes_plugin sample_install_manager repo_id
           installed_disk empty_roots).
  vm_compute. reflexivity.
Defined.



(** X15. [InstalledPlugin.clean] never raises: it returns on every disk,
    leaves no directory at the source path, and a second call changes
    nothing. *)
Theorem installed_clean_is_safe_and_idempotent :
  forall (self : InstalledPlugin) (d : disk),
    exists d',
      installed_clean self d = (Ok tt, d')
      /\ isdir d' (src self) = false
      /\ installed_clean self d' = (Ok tt, d').
Proof.
  intros self d. destruct (installed_clean_returns self d) as [d' Hclean].
  exists d'. split; [assumption|].
  pose proof (installed_clean_result _ _ _ _ Hclean) as Hdir.
  split; [assumption|].
  unfold installed_clean, bind, get, ret. simpl. now rewrite Hdir.
Qed.

(** ** Cloning *)

Lemma rmtree_removes_within p d d' q :
  rmtree p d = (Ok tt, d') -> within p q = true -> d' !! q = None.
Proof.
  unfold rmtree. destruct (d !! p) as [[|content]|]; try discriminate.
  intros [= <-] Hq. apply map_lookup_filter_None. right. intros x _. simpl.
  now rewrite Hq.
Qed.

(** X16. [clone] fetches into [plugin_base_dir/<digest of the url>], and a
    directory found there is removed with all it holds before the fetch:
    the fetch runs on a disk without that directory, on which everything
    outside it is as before. The plugin returned has that path. *)
Theorem clone_replaces_stale_copy :
  forall (ext : Externals) (self : GitPlugin) (plugin_base_dir : string)
         (d : disk),
    let location :=
      path_join plugin_base_dir (get_plugin_id ext (clone_url self)) in
    exists d1,
      isdir d1 location = false
      /\ (forall q, within location q = false -> d1 !! q = d !! q)
      /\ (isdir d location = true ->
          forall q, within location q = true -> d1 !! q = None)
      /\ clone ext self plugin_base_dir d
         = match clone_from ext (clone_url self) location d1 with
           | (Ok _, d2) => (Ok {| src := location |}, d2)
           | (Raise e, d2) => (Raise e, d2)
           end.
Proof.
  intros ext self plugin_base_dir d location.
  unfold clone, git_unique_id. fold location.
  unfold bind at 1. unfold get at 1. unfold bind at 1.
  destruct (isdir d location) eqn:Hdir.
  - assert (Hrm : exists d1, rmtree location d = (Ok tt, d1)).
    { unfold rmtree, isdir in *.
      destruct (d !! location) as [[|c]|]; try discriminate. eauto. }
    destruct Hrm as [d1 Hrm]. exists d1. rewrite Hrm.
    split; [|split; [|split]].
    + unfold isdir. now rewrite (rmtree_removes _ _ _ Hrm).
    + intros q Hq. exact (rmtree_outside _ _ _ _ _ Hrm Hq).
    + intros _ q Hq. exact (rmtree_removes_within _ _ _ _ Hrm Hq).
    + unfold bind, ret. now destruct (clone_from _ _ _ _) as [[[]|e] d2].
  - exists d. split; [assumption|]. split; [reflexivity|].
    split; [discriminate|].
    unfold bind, ret. now destruct (clone_from _ _ _ _) as [[[]|e] d2].
Qed.

Lemma clone_replaces_stale_copy_witness :
  exists d1,
    isdir d1 (path_join "/plugins" repo_id) = false
    /\ d1 !! "/venv" = stale_disk !! "/venv"
    /\ d1 !! path_join (path_join "/plugins" repo_id) "old.py" = None.
Proof.
  destruct (clone_replaces_stale_copy all_good {| clone_url := repo_url |}
              "/plugins" stale_disk) as (d1 & Hdir & Houtside & Hinside & _).
  exists d1. split; [exact Hdir|]. split.
  - apply Houtside. vm_compute. reflexivity.
  - apply Hinside; vm_compute; reflexivity.
Defined.

(** The fetch of [all_good] on a stale copy: the old file is gone. *)
Example clone_over_stale_copy :
  let out := clone all_good {| clone_url := repo_url |} "/plugins" stale_disk in
  out.1 = Ok {| src := path_join "/plugins" repo_id |}
  /\ out.2 !! path_join (path_join "/plugins" repo_id) "old.py" = None
  /\ isfile out.2 (path_join (path_join "/plugins" repo_id) "plugin.json")
     = true.
Proof. repeat split; vm_compute; reflexivity. Qed.

(** ** The registry listing *)

Lemma listed_descriptor ext repos obj :
  In obj (list_plugins ext repos) ->
  exists repo,
    In repo repos /\ has_manifest repo = true /\ obj = descriptor_of ext repo.
Proof.
  unfold list_plugins. intros Hin. apply in_map_iff in Hin as (repo & <- & Hin).
  apply filter_In in Hin as [Hin Hm]. eauto.
Qed.

(** X17. [list_plugins] yields one descriptor for each repository that has
    a [plugin.json] at its root, and for no other; each descriptor has
    exactly the keys id, name, url and description, and its id is the
    digest of its url. *)
Theorem listed_descriptors_shape :
  forall (ext : Externals) (repos : list Repository),
    length (list_plugins ext repos)
    = length (List.filter has_manifest repos)
    /\ forall obj, In obj (list_plugins ext repos) ->
         exists url,
           getitem_str obj "url" = Ok url
           /\ getitem_str obj "id" = Ok (get_plugin_id ext url)
           /\ dom obj = {[ "id"; "name"; "url"; "description" ]}.
Proof.
  intros ext repos. split.
  - unfold list_plugins. apply length_map.
  - intros obj Hin.
    apply listed_descriptor in Hin as (repo & _ & _ & ->).
    exists (repo_clone_url repo). unfold descriptor_of, getitem_str.
    split; [|split].
    + now rewrite lookup_insert_ne, lookup_insert_ne, lookup_insert_eq.
    + now rewrite lookup_insert_eq.
    + rewrite !dom_insert_L, dom_empty_L. set_solver.
Qed.

Example listing_skips_repositories_without_manifest :
  list_plugins all_good [plain_repo; demo_repo] = [repo_listed].
Proof. vm_compute. reflexivity. Qed.

Lemma clone_location ext self plugin_base_dir d plugin d' :
  clone ext self plugin_base_dir d = (Ok plugin, d') ->
  src plugin = path_join plugin_base_dir (get_plugin_id ext (clone_url self)).
Proof.
  unfold clone, git_unique_id, bind, get, ret.
  destruct (if isdir d _ then _ else _) as [[[]|e] d1]; [|discriminate].
  destruct (clone_from _ _ _ d1) as [[[]|e] d2]; [|discriminate].
  now intros [= <- _].
Qed.

Lemma install_body_location ext self git_plugin venv d plugin d' :
  install_body ext self git_plugin venv d = (Ok plugin, d') ->
  src plugin
  = path_join (im_plugin_dir self) (get_plugin_id ext (clone_url git_plugin)).
Proof.
  unfold install_body. unfold bind at 1.
  destruct (clone _ _ _ d) as [[p|e] d1] eqn:Hclone; [|discriminate].
  apply clone_location in Hclone. unfold bind, get, ret, raise.
  destruct (venv_install _ _ _ d1) as [[[]|e] d2]; simpl; try discriminate.
  now intros [= <- _].
Qed.

Lemma install_returns_clone_location ext self plugin_info d plugin d' :
  install ext self plugin_info d = (Ok (Some plugin), d') ->
  exists url,
    getitem_str plugin_info "url" = Ok url
    /\ src plugin = path_join (im_plugin_dir self) (get_plugin_id ext url).
Proof.
  unfold install, bind, lift.
  destruct (getitem_str plugin_info "url") as [url|e]; [|discriminate].
  destruct (getitem_str plugin_info "id") as [plugin_id|e]; [|discriminate].
  destruct (install_body _ _ _ _ d) as [[p|e] d1] eqn:Hbody.
  - intros [= <- <-]. exists url. split; [reflexivity|].
    now apply install_body_location in Hbody.
  - rewrite isinstance_exception. unfold ret.
    destruct (uninstall _ _ _) as [[[]|e'] d2]; discriminate.
Qed.

(** X18. For a descriptor the registry listing yields, the directory of the
    plugin that [install] returns is [get_plugin_path] of the descriptor's
    id: the place [is_installed] and [uninstall] look at. *)
Theorem install_of_listed_descriptor_uses_its_id :
  forall (ext : Externals) (repos : list Repository)
         (self : PluginInstallManager) (obj : dict) (d d' : disk)
         (plugin : InstalledPlugin),
    In obj (list_plugins ext repos) ->
    install ext self obj d = (Ok (Some plugin), d') ->
    exists plugin_id,
      getitem_str obj "id" = Ok plugin_id
      /\ get_plugin_dir plugin = get_plugin_path self plugin_id.
Proof.
  intros ext repos self obj d d' plugin Hin Hinstall.
  apply listed_descriptor in Hin as (repo & _ & _ & ->).
  apply install_returns_clone_location in Hinstall as (url & Hurl & Hsrc).
  unfold descriptor_of, getitem_str in *.
  rewrite lookup_insert_ne, lookup_insert_ne, lookup_insert_eq in Hurl
    by discriminate.
  injection Hurl as <-. rewrite lookup_insert_eq.
  exists (get_plugin_id ext (repo_clone_url repo)). split; [reflexivity|].
  unfold get_plugin_dir, get_plugin_path. exact Hsrc.
Qed.

Lemma listed_descriptors_shape_witness :
  exists url,
    getitem_str repo_listed "url" = Ok url
    /\ getitem_str repo_listed "id" = Ok (get_plugin_id all_good url)
    /\ dom repo_listed = {[ "id"; "name"; "url"; "description" ]}.
Proof.
  destruct (listed_descriptors_shape all_good [plain_repo; demo_repo])
    as [_ Hshape].
  apply Hshape. left. vm_compute. reflexivity.
Defined.

Lemma install_of_listed_descriptor_witness :
  exists plugin_id,
    getitem_str repo_listed "id" = Ok plugin_id
    /\ get_plugin_dir {| src := path_join "/plugins" repo_id |}
       = get_plugin_path sample_install_manager plugin_id.
Proof.
  apply (install_of_listed_descriptor_uses_its_id all_good [demo_repo]
           sample_install_manager repo_listed empty_roots
           (install all_good sample_install_manager repo_listed empty_roots).2).
  - left. vm_compute. reflexivity.
  - apply injective_projections; [vm_compute; reflexivity | reflexivity].
Defined.

(** ** The info filter *)

(** X19. [PluginInfoFilter.filter] never changes what the registry and the
    state filter put in a descriptor: the entries under id, name, url,
    description, installed, active, enabled and install_path are the same
    afterwards, whether the filter returned or raised. *)
Theorem info_filter_keeps_descriptor_fields :
  forall (ext : Externals) (d : disk) (obj obj' : dict) (r : result unit)
         (k : string),
    PluginInfoFilter_filter ext d obj = (r, obj') ->
    In k ["id"; "name"; "url"; "description"; "installed"; "active";
          "enabled"; "install_path"] ->
    obj' !! k = obj !! k.
Proof.
  intros ext d obj obj' r k Hfilter Hin.
  apply (info_filter_writes _ _ _ _ _ k Hfilter).
  simpl in *. intros Hwritten.
  repeat (destruct Hin as [<- | Hin];
          [repeat (destruct Hwritten as [Hwritten | Hwritten];
                   [discriminate Hwritten|]); exact Hwritten|]).
  exact Hin.
Qed.

Lemma info_filter_keeps_descriptor_fields_witness :
  (PluginInfoFilter_filter all_good p1_disk p1_with_state).2 !! "install_path"
  = p1_with_state !! "install_path".
Proof.
  apply (info_filter_keeps_descriptor_fields all_good p1_disk p1_with_state _
           (PluginInfoFilter_filter all_good p1_disk p1_with_state).1).
  - apply surjective_pairing.
  - simpl. tauto.
Defined.

Lemma errors_extend_refl obj : errors_extend obj obj.
Proof. intros l Hl. exists []. now rewrite app_nil_r. Qed.

Lemma errors_extend_trans obj1 obj2 obj3 :
  errors_extend obj1 obj2 -> errors_extend obj2 obj3 ->
  errors_extend obj1 obj3.
Proof.
  intros H12 H23 l Hl. destruct (H12 l Hl) as [rest1 H1].
  destruct (H23 _ H1) as [rest2 H2]. exists (rest1 ++ rest2)%list.
  now rewrite app_assoc.
Qed.

Lemma extends_errors_bind {A B} (m : M dict A) (f : A -> M dict B) :
  extends_errors m -> (forall a, extends_errors (f a)) ->
  extends_errors (bind m f).
Proof.
  intros Hm Hf obj r obj' Hrun. unfold bind in Hrun.
  destruct (m obj) as [[a|e] obj1] eqn:Hmo.
  - eapply errors_extend_trans; [exact (Hm _ _ _ Hmo) | exact (Hf a _ _ _ Hrun)].
  - injection Hrun as _ <-. exact (Hm _ _ _ Hmo).
Qed.

Lemma extends_errors_pure {A} (x : result A) : extends_errors (lift x).
Proof. intros obj r obj' [= _ <-]. apply errors_extend_refl. Qed.

Lemma extends_errors_get : extends_errors (@get dict).
Proof. intros obj r obj' [= _ <-]. apply errors_extend_refl. Qed.

Lemma extends_errors_setitem key v :
  key <> "errors" -> extends_errors (setitem key v).
Proof.
  intros Hne obj r obj' [= _ <-] l Hl. exists [].
  now rewrite lookup_insert_ne, app_nil_r.
Qed.

Lemma extends_errors_append_error msg : extends_errors (append_error msg).
Proof.
  intros obj r obj' Hrun l Hl.
  unfold append_error, bind, get, setitem, modify in Hrun. rewrite Hl in Hrun.
  injection Hrun as _ <-. exists [JStr msg]. apply lookup_insert_eq.
Qed.

Ltac extends_errors_steps :=
  repeat first
    [ apply (extends_errors_pure (Ok _)) | apply (extends_errors_pure (Raise _))
    | apply extends_errors_pure | apply extends_errors_get
    | apply extends_errors_append_error
    | apply extends_errors_setitem; discriminate
    | apply extends_errors_bind; [|intros ?] ].

Lemma info_filter_extends_errors ext d :
  extends_errors (PluginInfoFilter_filter ext d).
Proof.
  unfold PluginInfoFilter_filter.
  apply extends_errors_bind; [apply extends_errors_get|]. intros obj.
  destruct (negb _); [apply (extends_errors_pure (Ok tt))|].
  apply extends_errors_bind; [apply extends_errors_pure|]. intros install_path.
  destruct (rbind _ _) as [plugin_info|e].
  - destruct (resolve_service _ _ _) as [[module|]|e];
      [| apply (extends_errors_pure (Ok tt)) |].
    + extends_errors_steps.
    + repeat match goal with |- context [if ?b then _ else _] => destruct b end;
        extends_errors_steps.
  - repeat match goal with |- context [if ?b then _ else _] => destruct b end;
      extends_errors_steps.
Qed.

(** X20. The info filter only adds to the error messages of a descriptor:
    when the descriptor holds a list under ["errors"], that list is still
    there afterwards, in the same order, with at most new messages after
    it, whether the filter returned or raised. *)
Theorem info_filter_keeps_earlier_errors :
  forall (ext : Externals) (d : disk) (obj obj' : dict) (r : result unit)
         (l : list json),
    PluginInfoFilter_filter ext d obj = (r, obj') ->
    obj !! "errors" = Some (VJson (JList l)) ->
    exists rest, obj' !! "errors" = Some (VJson (JList (l ++ rest))).
Proof.
  intros ext d obj obj' r l Hfilter Herrors.
  exact (info_filter_extends_errors ext d _ _ _ Hfilter l Herrors).
Qed.

Lemma info_filter_keeps_earlier_errors_witness :
  exists rest,
    (PluginInfoFilter_filter missing_dependency p1_disk p1_with_errors).2
      !! "errors"
    = Some (VJson (JList ([JStr "earlier message"] ++ rest))).
Proof.
  apply (info_filter_keeps_earlier_errors missing_dependency p1_disk
           p1_with_errors _
           (PluginInfoFilter_filter missing_dependency p1_disk p1_with_errors).1).
  - apply surjective_pairing.
  - vm_compute. reflexivity.
Defined.

Example import_error_is_appended :
  let out := PluginInfoFilter_filter missing_dependency p1_disk p1_with_errors in
  out.1 = Ok tt
  /\ out.2 !! "errors"
     = Some (VJson (JList [JStr "earlier message";
                           JStr "Failed to import dependencies for demo"]))
  /\ out.2 !! "service_cls" = None.
Proof. repeat split; vm_compute; reflexivity. Qed.

(** The filter up to the point where the manifest has been parsed. *)
Lemma info_filter_parsed ext d obj install_path text plugin_info :
  truthy_get obj "installed" = true ->
  getitem_str obj "install_path" = Ok install_path ->
  read_file d (path_join install_path "plugin.json") = Ok text ->
  json_loads ext text = Ok plugin_info ->
  PluginInfoFilter_filter ext d obj
  = match resolve_service ext install_path plugin_info with
    | Ok None => ret tt
    | Raise e =>
        if isinstance e CAttributeError then
          append_error "Possibly bad service specification in plugin.json"
        else if isinstance e CImportError then
          name <- lift (getitem_str obj "name") ;;
          append_error ("Failed to import dependencies for " +:+ name)
        else if isinstance e CKeyError then
          name <- lift (getitem_str obj "name") ;;
          append_error
            ("Required field not found in plugin.json for " +:+ name)
        else raise e
    | Ok (Some module) =>
        service <- lift (json_getitem plugin_info "service") ;;
        setitem "deps" (VJson (json_get plugin_info "deps" JNull)) ;;;
        setitem "package_path" (VJson service) ;;;
        setitem "config" (VJson (json_get plugin_info "config" (JObj []))) ;;;
        setitem "start_timeout"
          (VJson (json_get plugin_info "start_timeout" (JNum 30))) ;;;
        setitem "service_cls" module
    end obj.
Proof.
  intros Hinst Hpath Hread Hjson.
  unfold PluginInfoFilter_filter.
  unfold bind at 1. unfold get at 1. rewrite Hinst. cbn [negb].
  unfold bind at 1. unfold lift at 1. rewrite Hpath, Hread.
  unfold rbind at 1. now rewrite Hjson.
Qed.

(** X21. A manifest that parses to something other than a dictionary (a
    list, a string, a number, [null]) makes the info filter raise
    [TypeError]: none of its handlers catches it, and the descriptor gets
    no error message. *)
Theorem info_filter_raises_on_non_object_manifest :
  forall (ext : Externals) (d : disk) (obj : dict)
         (install_path text : string) (plugin_info : json),
    truthy_get obj "installed" = true ->
    getitem_str obj "install_path" = Ok install_path ->
    read_file d (path_join install_path "plugin.json") = Ok text ->
    json_loads ext text = Ok plugin_info ->
    (forall kvs, plugin_info <> JObj kvs) ->
    exists msg,
      PluginInfoFilter_filter ext d obj = (Raise (TypeError msg), obj).
Proof.
  intros ext d obj install_path text plugin_info Hinst Hpath Hread Hjson Hobj.
  rewrite (info_filter_parsed _ _ _ _ _ _ Hinst Hpath Hread Hjson).
  unfold resolve_service.
  destruct plugin_info; try (eexists; reflexivity).
  now destruct (Hobj kvs).
Qed.

Lemma info_filter_raises_on_non_object_manifest_witness :
  exists msg,
    PluginInfoFilter_filter (with_manifest (JList [JStr "demo.Main"]))
      p1_disk p1_with_state
    = (Raise (TypeError msg), p1_with_state).
Proof.
  apply (info_filter_raises_on_non_object_manifest
           (with_manifest (JList [JStr "demo.Main"])) p1_disk p1_with_state
           "/plugins/p1" "demo manifest" (JList [JStr "demo.Main"]));
    try (vm_compute; reflexivity).
  discriminate.
Defined.

(** X22. Three failures to resolve a manifest leave no trace in the
    descriptor: a manifest that cannot be opened, a manifest that is not
    JSON (for a descriptor with a name in both cases), and a [service]
    string without a dot. The filter returns the descriptor unchanged,
    without an entry under ["errors"]. *)
Theorem info_filter_reports_nothing :
  forall (ext : Externals) (d : disk) (obj : dict) (install_path : string),
    truthy_get obj "installed" = true ->
    getitem_str obj "install_path" = Ok install_path ->
    (exists e name,
       read_file d (path_join install_path "plugin.json") = Raise e
       /\ obj !! "name" = Some name)
    \/ (exists text msg name,
          read_file d (path_join install_path "plugin.json") = Ok text
          /\ json_loads ext text = Raise (ValueError msg)
          /\ obj !! "name" = Some name)
    \/ (exists text plugin_info service,
          read_file d (path_join install_path "plugin.json") = Ok text
          /\ json_loads ext text = Ok plugin_info
          /\ json_getitem plugin_info "service" = Ok (JStr service)
          /\ has_dot service = false) ->
    PluginInfoFilter_filter ext d obj = (Ok tt, obj).
Proof.
  intros ext d obj install_path Hinst Hpath Hcase.
  destruct Hcase as [(e & name & Hread & Hname)
                    | [(text & msg & name & Hread & Hjson & Hname)
                      | (text & plugin_info & service & Hread & Hjson & Hsvc & Hdot)]].
  - unfold PluginInfoFilter_filter, bind, get, lift, ret, getitem.
    rewrite Hinst. cbn [negb]. rewrite Hpath. cbv beta iota.
    rewrite Hread. unfold rbind.
    assert (Hio : isinstance e CIOError = true).
    { unfold read_file in Hread.
      destruct (d !! _) as [[|c]|]; try discriminate;
        now injection Hread as <-. }
    now rewrite Hio, Hname.
  - unfold PluginInfoFilter_filter, bind, get, lift, ret, getitem.
    rewrite Hinst. cbn [negb]. rewrite Hpath. cbv beta iota.
    rewrite Hread. unfold rbind. rewrite Hjson. cbn [isinstance].
    now rewrite Hname.
  - rewrite (info_filter_parsed _ _ _ _ _ _ Hinst Hpath Hread Hjson).
    unfold resolve_service. rewrite Hsvc. unfold rbind, json_contains_dot.
    now rewrite Hdot.
Qed.

Lemma info_filter_reports_nothing_witness :
  PluginInfoFilter_filter (with_manifest (JObj [("service", JStr "Main")]))
    p1_disk p1_with_state
  = (Ok tt, p1_with_state).
Proof.
  apply (info_filter_reports_nothing
           (with_manifest (JObj [("service", JStr "Main")]))
           p1_disk p1_with_state "/plugins/p1");
    try (vm_compute; reflexivity).
  right. right. exists "demo manifest", (JObj [("service", JStr "Main")]), "Main".
  repeat split; vm_compute; reflexivity.
Defined.

(** X23. When the manifest resolves, the filter writes five entries: the
    class under ["service_cls"], the [service] string under
    ["package_path"], and ["deps"], ["config"] and ["start_timeout"] from
    the manifest, with [None], an empty dictionary and 30 for the ones the
    manifest omits. *)
Theorem info_filter_fills_in_defaults :
  forall (ext : Externals) (d : disk) (obj : dict)
         (install_path text : string) (plugin_info : json) (module : value),
    truthy_get obj "installed" = true ->
    getitem_str obj "install_path" = Ok install_path ->
    read_file d (path_join install_path "plugin.json") = Ok text ->
    json_loads ext text = Ok plugin_info ->
    resolve_service ext install_path plugin_info = Ok (Some module) ->
    exists obj' service,
      PluginInfoFilter_filter ext d obj = (Ok tt, obj')
      /\ json_getitem plugin_info "service" = Ok service
      /\ obj' !! "service_cls" = Some module
      /\ obj' !! "package_path" = Some (VJson service)
      /\ obj' !! "deps" = Some (VJson (json_get plugin_info "deps" JNull))
      /\ obj' !! "config"
         = Some (VJson (json_get plugin_info "config" (JObj [])))
      /\ obj' !! "start_timeout"
         = Some (VJson (json_get plugin_info "start_timeout" (JNum 30))).
Proof.
  intros ext d obj install_path text plugin_info module Hinst Hpath Hread
    Hjson Hres.
  rewrite (info_filter_parsed _ _ _ _ _ _ Hinst Hpath Hread Hjson), Hres.
  assert (Hsvc : exists service, json_getitem plugin_info "service" = Ok service).
  { unfold resolve_service in Hres.
    destruct (json_getitem plugin_info "service"); [eauto | discriminate]. }
  destruct Hsvc as [service Hsvc]. rewrite Hsvc.
  unfold bind, lift, setitem, modify. simpl.
  eexists _, service. split; [reflexivity|]. split; [reflexivity|].
  repeat split;
    repeat first [ rewrite lookup_insert_eq; reflexivity
                 | rewrite lookup_insert_ne by discriminate ].
Qed.

Lemma info_filter_fills_in_defaults_witness :
  exists obj' service,
    PluginInfoFilter_filter all_good p1_disk p1_with_state = (Ok tt, obj')
    /\ json_getitem (JObj [("service", JStr "demo.Main")]) "service"
       = Ok service
    /\ obj' !! "service_cls" = Some (class_of (ready_after 1))
    /\ obj' !! "package_path" = Some (VJson service)
    /\ obj' !! "deps"
       = Some (VJson (json_get (JObj [("service", JStr "demo.Main")]) "deps" JNull))
    /\ obj' !! "config"
       = Some (VJson (json_get (JObj [("service", JStr "demo.Main")]) "config"
                        (JObj [])))
    /\ obj' !! "start_timeout"
       = Some (VJson (json_get (JObj [("service", JStr "demo.Main")])
                        "start_timeout" (JNum 30))).
Proof.
  apply (info_filter_fills_in_defaults all_good p1_disk p1_with_state
           "/plugins/p1" "demo manifest" (JObj [("service", JStr "demo.Main")])
           (class_of (ready_after 1)));
    vm_compute; reflexivity.
Defined.

(** ** The state filter *)

(** X24. However a [PluginStateFilter] is built, its [filter] raises: it
    asks the object it holds as install manager for both [is_installed],
    which only [PluginInstallManager] has, and [is_enabled], which only
    [PluginExecutionManager] has. *)
Theorem state_filter_always_raises :
  forall (self : PluginStateFilter) (d : disk) (obj : dict),
    exists e obj', PluginStateFilter_filter self d obj = (Raise e, obj').
Proof.
  intros [[im|em] [im'|em']] d obj;
    unfold PluginStateFilter_filter, bind, lift, get, setitem, modify; simpl;
    try (eexists _, _; reflexivity);
    destruct (getitem_str obj "id"); simpl; eexists _, _; reflexivity.
Qed.

(** ** The launcher *)

(** X25. [handle_weave_launch] never obtains a service class: for every
    plugin directory, what is on disk there and whatever the manifest
    holds, either the info filter raises or the look-up of ["cls"] in what
    it returns raises [KeyError]; with no manifest in the directory the
    filter raises [KeyError("name")]. *)
Theorem launcher_always_raises :
  forall (ext : Externals) (d : disk) (plugin_dir : string),
    (exists e, launch_service_class ext d plugin_dir = Raise e)
    /\ (d !! path_join plugin_dir "plugin.json" = None ->
        launch_service_class ext d plugin_dir = Raise (KeyError "name")).
Proof.
  intros ext d plugin_dir. split.
  - pose proof (launcher_finds_no_service_class ext d plugin_dir) as H.
    destruct (launch_service_class ext d plugin_dir) as [v|e];
      [discriminate | eauto].
  - intros Hnone. unfold launch_service_class.
    unfold PluginInfoFilter_filter, bind, get, lift, ret, getitem, truthy_get,
      getitem_str.
    rewrite lookup_insert_eq. cbn [truthy negb].
    rewrite lookup_insert_ne, lookup_insert_eq by discriminate.
    cbv beta iota. unfold read_file. rewrite Hnone. unfold rbind.
    cbn [isinstance].
    rewrite !lookup_insert_ne, lookup_empty by discriminate. reflexivity.
Qed.

Lemma launcher_always_raises_witness :
  launch_service_class all_good empty_roots "/plugins/p1"
  = Raise (KeyError "name").
Proof.
  destruct (launcher_always_raises all_good empty_roots "/plugins/p1")
    as [_ Hmissing].
  apply Hmissing. vm_compute. reflexivity.
Defined.

(** ** Plugin summaries *)

Lemma pick_fields_lookup fields plugin :
  forall res0 res,
    pick_fields fields plugin res0 = Ok res ->
    forall k,
      res !! k = if existsb (String.eqb k) fields then plugin !! k
                 else res0 !! k.
Proof.
  induction fields as [|x rest IH]; intros res0 res Hpick k; simpl in *.
  - now injection Hpick as <-.
  - destruct (plugin !! x) as [v|] eqn:Hx; [|discriminate].
    rewrite (IH _ _ Hpick k).
    destruct (existsb (String.eqb k) rest);
      [now rewrite orb_true_r|]. rewrite orb_false_r.
    destruct (String.eqb_spec k x) as [->|Hne].
    + now rewrite lookup_insert_eq.
    + rewrite lookup_insert_ne by congruence. reflexivity.
Qed.

Lemma pick_fields_succeeds fields plugin :
  forall res0,
    (exists res, pick_fields fields plugin res0 = Ok res)
    <-> Forall (fun x => is_Some (plugin !! x)) fields.
Proof.
  induction fields as [|x rest IH]; intros res0; simpl.
  - split; [constructor | eauto].
  - destruct (plugin !! x) as [v|] eqn:Hx.
    + rewrite IH. split.
      * intros H. constructor; [rewrite Hx; eauto | assumption].
      * intros H. now inversion H.
    + split.
      * intros [res H]. discriminate H.
      * intros H. inversion H as [|? ? [v Hv] _]. congruence.
Qed.

(** X26. A plugin summary holds the seven fields id, name, description,
    url, installed, enabled and active of the descriptor, its ["errors"]
    when that is a non-empty list (or any other true value), and nothing
    else: the install path, the configuration and the service class never
    reach a response. [convert_plugin] returns exactly when the seven
    fields are all there. *)
Theorem convert_plugin_shape :
  forall (plugin : dict),
    ((exists res, convert_plugin plugin = Ok res)
     <-> Forall (fun x => is_Some (plugin !! x)) summary_fields)
    /\ forall res, convert_plugin plugin = Ok res ->
         forall k,
           res !! k
           = if existsb (String.eqb k) summary_fields then plugin !! k
             else if String.eqb k "errors" && truthy_get plugin "errors"
                  then plugin !! "errors"
                  else None.
Proof.
  intros plugin. unfold convert_plugin, rbind. split.
  - rewrite <- (pick_fields_succeeds summary_fields plugin ∅).
    destruct (pick_fields summary_fields plugin ∅) as [res0|e].
    + split; [eauto|]. intros _.
      destruct (truthy_get plugin "errors") eqn:Herr; [|eauto].
      unfold truthy_get, getitem in *.
      destruct (plugin !! "errors"); [eauto | discriminate].
    + split; intros [res H]; discriminate H.
  - intros res Hconv k.
    destruct (pick_fields summary_fields plugin ∅) as [res0|e] eqn:Hpick;
      [|discriminate].
    pose proof (pick_fields_lookup _ _ _ _ Hpick k) as Hk.
    rewrite lookup_empty in Hk.
    destruct (truthy_get plugin "errors") eqn:Herr.
    + unfold truthy_get, getitem in *.
      destruct (plugin !! "errors") as [errors|]; [|discriminate].
      injection Hconv as <-.
      destruct (String.eqb_spec k "errors") as [->|Hne].
      * rewrite lookup_insert_eq. reflexivity.
      * rewrite lookup_insert_ne by congruence. rewrite Hk.
        now rewrite andb_false_l.
    + injection Hconv as <-. rewrite Hk. now rewrite andb_false_r.
Qed.

Example summary_of_projected_plugin :
  match convert_plugin p1_projected with
  | Ok res =>
      res !! "id" = Some (VStr "p1")
      /\ res !! "errors" = p1_projected !! "errors"
      /\ res !! "service_cls" = None
      /\ res !! "install_path" = None
  | Raise _ => False
  end.
Proof. vm_compute. repeat split. Qed.

Lemma convert_plugin_shape_witness :
  (exists res, convert_plugin p1_projected = Ok res)
  /\ forall res, convert_plugin p1_projected = Ok res ->
       res !! "install_path" = None.
Proof.
  destruct (convert_plugin_shape p1_projected) as [Hreturns Hshape].
  split.
  - apply Hreturns. unfold summary_fields.
    repeat (constructor; [eexists; vm_compute; reflexivity|]). constructor.
  - intros res Hres. rewrite (Hshape res Hres "install_path"). reflexivity.
Defined.

(** X27. A descriptor as the registry lists it has no summary:
    [convert_plugin] raises [KeyError("installed")] on it, so it has to go
    through the state filter first. *)
Theorem listed_descriptor_has_no_summary :
  forall (ext : Externals) (repos : list Repository) (obj : dict),
    In obj (list_plugins ext repos) ->
    convert_plugin obj = Raise (KeyError "installed").
Proof.
  intros ext repos obj Hin.
  apply listed_descriptor in Hin as (repo & _ & _ & ->).
  unfold convert_plugin, summary_fields, descriptor_of. simpl.
  repeat first [ rewrite lookup_insert_eq
               | rewrite lookup_insert_ne by discriminate ].
  rewrite lookup_empty. reflexivity.
Qed.

Lemma listed_descriptor_has_no_summary_witness :
  convert_plugin repo_listed = Raise (KeyError "installed").
Proof.
  apply (listed_descriptor_has_no_summary all_good [plain_repo; demo_repo]).
  left. vm_compute. reflexivity.
Defined.

(** ** The catalog and the request handlers *)

Lemma add_plugins_raises ext repo rest fa :
  exists msg, add_plugins ext (repo :: rest) fa = (Raise (TypeError msg), fa).
Proof. eexists. reflexivity. Qed.

(** X28. [start] always leaves the catalog empty: it empties it, and the
    projection of the first descriptor the registry yields raises
    [TypeError], so [start] raises as soon as one repository has a
    manifest, and returns only when none has. The managers and the disk
    are untouched. *)
Theorem start_leaves_catalog_empty :
  forall (ext : Externals) (repos : list Repository) (fa : Facade),
    let out := PluginManager_start ext repos fa in
    fa_plugins out.2 = ∅
    /\ fa_manager out.2 = fa_manager fa
    /\ fa_disk out.2 = fa_disk fa
    /\ (existsb has_manifest repos = false -> out.1 = Ok tt)
    /\ (existsb has_manifest repos = true ->
        exists msg, out.1 = Raise (TypeError msg)).
Proof.
  intros ext repos fa. unfold PluginManager_start, list_plugins.
  unfold bind at 1. unfold set_plugins, modify at 1. cbv beta iota.
  assert (Hfilter : List.filter has_manifest repos = []
                    <-> existsb has_manifest repos = false).
  { induction repos as [|repo rest IH]; simpl; [tauto|].
    destruct (has_manifest repo); simpl; [split; discriminate | exact IH]. }
  destruct (List.filter has_manifest repos) as [|repo rest] eqn:Hf; simpl.
  - repeat split. intros Hsome.
    destruct Hfilter as [Hnone _]. rewrite (Hnone eq_refl) in Hsome.
    discriminate.
  - repeat split.
    + intros Hnone. apply Hfilter in Hnone. discriminate.
    + intros _. eexists. reflexivity.
Qed.

Lemma start_leaves_catalog_empty_witness :
  let out := PluginManager_start all_good [plain_repo; demo_repo] facade_with_p1 in
  fa_plugins out.2 = ∅
  /\ fa_manager out.2 = fa_manager facade_with_p1
  /\ fa_disk out.2 = fa_disk facade_with_p1
  /\ (existsb has_manifest [plain_repo; demo_repo] = false -> out.1 = Ok tt)
  /\ (existsb has_manifest [plain_repo; demo_repo] = true ->
      exists msg, out.1 = Raise (TypeError msg)).
Proof.
  exact (start_leaves_catalog_empty all_good [plain_repo; demo_repo]
           facade_with_p1).
Defined.

Lemma unknown_plugin_is_refused ext params plugin_id fa :
  getitem_str params "id" = Ok plugin_id ->
  find_plugin fa plugin_id = None ->
  PluginManager_install ext params fa = (Ok (404, error_body "Not found."), fa)
  /\ PluginManager_uninstall ext params fa
     = (Ok (404, error_body "Not found."), fa)
  /\ PluginManager_update_token params fa
     = (Ok (404, error_body "Not found."), fa).
Proof.
  intros Hid Hnone.
  unfold PluginManager_install, PluginManager_uninstall,
    PluginManager_update_token, bind, lift, get, ret.
  rewrite Hid. simpl. rewrite Hnone. auto.
Qed.

(** X29. After [start], over any repositories, every install, uninstall and
    token request that names a plugin is answered 404 "Not found." and
    changes nothing: the catalog holds no plugin to act on. *)
Theorem requests_after_start_find_no_plugin :
  forall (ext : Externals) (repos : list Repository) (fa : Facade)
         (params : dict) (plugin_id : string),
    getitem_str params "id" = Ok plugin_id ->
    let started := (PluginManager_start ext repos fa).2 in
    PluginManager_install ext params started
    = (Ok (404, error_body "Not found."), started)
    /\ PluginManager_uninstall ext params started
       = (Ok (404, error_body "Not found."), started)
    /\ PluginManager_update_token params started
       = (Ok (404, error_body "Not found."), started).
Proof.
  intros ext repos fa params plugin_id Hid started.
  apply (unknown_plugin_is_refused ext params plugin_id started Hid).
  unfold find_plugin.
  assert (Hempty : fa_plugins started = ∅).
  { unfold started, PluginManager_start, list_plugins.
    unfold bind at 1. unfold set_plugins, modify at 1. cbv beta iota.
    now destruct (List.filter has_manifest repos). }
  now rewrite Hempty, lookup_empty.
Qed.

Lemma requests_after_start_witness :
  let started :=
    (PluginManager_start all_good [demo_repo] facade_with_p1).2 in
  PluginManager_install all_good p1_params started
  = (Ok (404, error_body "Not found."), started)
  /\ PluginManager_uninstall all_good p1_params started
     = (Ok (404, error_body "Not found."), started)
  /\ PluginManager_update_token p1_params started
     = (Ok (404, error_body "Not found."), started).
Proof.
  apply (requests_after_start_find_no_plugin all_good [demo_repo]
           facade_with_p1 p1_params "p1").
  vm_compute. reflexivity.
Defined.

(** X30. Statuses the handlers cannot answer. An install request is never
    answered 200 and an uninstall request is answered 404 or not at all:
    once the manager has done its work, the projection of the descriptor
    raises [TypeError]. A token request is never answered 400: for a
    plugin of the catalog and a blank token, the handler reads [e.message]
    from the [ValueError] and raises [AttributeError], the execution
    manager being left as it was. *)
Theorem handlers_unreachable_statuses :
  forall (ext : Externals) (params : dict) (fa fa' : Facade) (code : Z)
         (body : dict),
    (PluginManager_install ext params fa = (Ok (code, body), fa') ->
       code = 404 \/ code = 400)
    /\ (PluginManager_uninstall ext params fa = (Ok (code, body), fa') ->
        code = 404)
    /\ (PluginManager_update_token params fa = (Ok (code, body), fa') ->
        code = 404 \/ code = 200)
    /\ (forall plugin_id plugin_info token,
          getitem_str params "id" = Ok plugin_id ->
          find_plugin fa plugin_id = Some plugin_info ->
          token_param params = Ok token ->
          blank token = true ->
          exists msg,
            PluginManager_update_token params fa
            = (Raise (AttributeError msg), fa)).
Proof.
  intros ext params fa fa' code body. split; [|split; [|split]].
  - unfold PluginManager_install, bind, lift, get, ret.
    destruct (getitem_str params "id") as [plugin_id|e]; [|discriminate].
    simpl. destruct (find_plugin fa plugin_id) as [plugin_info|].
    + destruct (on_disk _ fa) as [[[plugin|]|e] fa1]; try discriminate.
      intros [= <- _ _]. now right.
    + intros [= <- _ _]. now left.
  - unfold PluginManager_uninstall, bind, lift, get, ret.
    destruct (getitem_str params "id") as [plugin_id|e]; [|discriminate].
    simpl. destruct (find_plugin fa plugin_id) as [plugin_info|].
    + destruct (on_disk _ fa) as [[[]|e] fa1]; discriminate.
    + now intros [= <- _ _].
  - unfold PluginManager_update_token, bind, lift, get, ret.
    destruct (getitem_str params "id") as [plugin_id|e]; [|discriminate].
    simpl. destruct (find_plugin fa plugin_id) as [plugin_info|].
    + destruct (token_param params) as [token|e]; [|discriminate].
      destruct (on_execution_manager _ fa) as [[b|e] fa1].
      * destruct (convert_plugin plugin_info); [|discriminate].
        intros [= <- _ _]. now right.
      * destruct e; discriminate.
    + intros [= <- _ _]. now left.
  - intros plugin_id plugin_info token Hid Hfound Htoken Hblank.
    unfold PluginManager_update_token, bind, lift, get, ret.
    rewrite Hid. simpl. rewrite Hfound, Htoken.
    unfold on_execution_manager, update_token.
    rewrite strip_truthy, Hblank. simpl.
    destruct fa as [[im em] plugins d]. simpl. eexists. reflexivity.
Qed.

Lemma handlers_unreachable_statuses_witness :
  exists msg,
    PluginManager_update_token (<["token" := VStr "   "]> p1_params)
      facade_with_p1
    = (Raise (AttributeError msg), facade_with_p1).
Proof.
  destruct (handlers_unreachable_statuses all_good
              (<["token" := VStr "   "]> p1_params)
              facade_with_p1 facade_with_p1 0 ∅) as (_ & _ & _ & Hblank).
  apply (Hblank "p1" p1_projected "   "); vm_compute; reflexivity.
Defined.

(** A token that is not blank, for a plugin of the catalog with a record:
    200 and the summary, with the token in the record. *)
Example token_request_is_stored :
  let out := PluginManager_update_token
               (<["token" := VStr "fresh"]> p1_params) facade_with_p1 in
  match out.1 with
  | Ok (code, body) => code = 200 /\ body !! "id" = Some (VStr "p1")
  | Raise _ => False
  end
  /\ database (execution_manager (fa_manager out.2)) !! "p1"
     = Some {| enabled := true; app_secret_token := Some "fresh" |}.
Proof. vm_compute. repeat split. Qed.
